(** * Hand-gesture calibration and hand-tracking stability

    A shallow embedding of [gesture_calibrator.py] (class
    [GestureCalibrator]) and of the stability part of [handtracker.py]
    (class [HandTracker]), with the properties of the design document
    stated and proved over it.

    Numbers.  Pixel coordinates, step indices and the stability counter
    are Python integers and are modelled by [Z] and [nat].  Every quantity
    the Python code holds in a binary64 float (hand sizes, distances,
    thresholds, weights, time stamps, normalised detector coordinates) is
    modelled by a real number: [np.sqrt] is [sqrt], [/] is real division
    and [int(.)] is truncation towards zero.  The integer [100] that the
    code returns as a fallback hand size is the real number [100].
    Rounding is therefore not part of this model. *)

From Stdlib Require Import Reals Lra Lia ZArith Ascii String.
From stdpp Require Import gmap strings list fin_maps pretty.

#[global] Instance Rlt_rel_decision : RelDecision Rlt := Rlt_dec.

(** ** Landmarks *)

(** A landmark is the Python tuple [(index, x, y)]. *)
Definition landmark : Type := Z * Z * Z.

Definition lm_id (p : landmark) : Z := p.1.1.
Definition lm_x (p : landmark) : Z := p.1.2.
Definition lm_y (p : landmark) : Z := p.2.

(** [l[i]] where the surrounding code has already tested [i < len(l)]. *)
Definition item (l : list landmark) (i : nat) : landmark :=
  nth i l (0, 0, 0)%Z.

(** The Euclidean distance of the design document, between the positions
    of two landmarks. *)
Definition euclidean_distance (p q : landmark) : R :=
  sqrt ((IZR (lm_x p) - IZR (lm_x q)) ^ 2 + (IZR (lm_y p) - IZR (lm_y q)) ^ 2).

(** [str.upper()] on ASCII text. *)
Definition ascii_upper (c : ascii) : ascii :=
  let n := nat_of_ascii c in
  if (97 <=? n)%nat && (n <=? 122)%nat then ascii_of_nat (n - 32) else c.

Fixpoint upper (s : string) : string :=
  match s with
  | EmptyString => EmptyString
  | String c s' => String (ascii_upper c) (upper s')
  end.

Module GestureCalibrator.

(** One entry of [calibration_data]: the dict with the keys ['hand_size'],
    ['landmarks'], ['finger_states'] and ['timestamp']. *)
Record Snapshot : Type := mkSnapshot {
  hand_size : R;
  landmarks : list landmark;
  finger_states : gmap string bool;
  timestamp : R
}.

(** The instance attributes.  [calibration_thresholds] and
    [base_hand_size] exist only once they have been assigned, which the
    code probes with [hasattr]; an absent attribute is [None]. *)
Record Calibrator : Type := mkCalibrator {
  current_step : nat;
  calibration_data : gmap string Snapshot;
  is_calibrating : bool;
  calibration_complete : bool;
  calibration_thresholds : option (gmap string R);
  base_hand_size : option R
}.

(** [self.calibration_steps] is assigned in [__init__] and never again. *)
Definition calibration_steps : list string :=
  ["open_hand"; "fist"; "pinch"; "pointing"; "victory"].

Definition __init__ : Calibrator :=
  {| current_step := 0;
     calibration_data := ∅;
     is_calibrating := false;
     calibration_complete := false;
     calibration_thresholds := None;
     base_hand_size := None |}.

(** The dict returned by [start_calibration] and by a non-final
    [next_step]. *)
Record StepInfo : Type := mkStepInfo {
  step : nat;
  total_steps : nat;
  gesture : string;
  message : string
}.

(** The dict returned by [process_calibration_step]. *)
Record Progress : Type := mkProgress {
  p_step : nat;
  p_total_steps : nat;
  p_gesture : string;
  p_hand_size : R;
  progress : R
}.

(** The string returned by [_calculate_thresholds]: either a literal, or
    the f-string [Calibration complete! Hand size: {base_hand_size:.1f}],
    kept with its argument unformatted. *)
Inductive result_message : Type :=
  | Text (s : string)
  | CompleteHandSize (base : R).

(** The dict returned by the final [next_step]. *)
Record Completion : Type := mkCompletion {
  complete : bool;
  c_message : result_message;
  thresholds : option (gmap string R);
  c_base_hand_size : option R
}.

Inductive NextResult : Type :=
  | Advanced (info : StepInfo)
  | Completed (c : Completion).

(** An uncaught Python exception. *)
Inductive outcome (A : Type) : Type :=
  | Returns (a : A)
  | RaisesIndexError.
Arguments Returns {A} a.
Arguments RaisesIndexError {A}.

Definition start_calibration (frame_width frame_height : Z) (c : Calibrator)
  : Calibrator * StepInfo :=
  let c' := {| current_step := 0;
               calibration_data := ∅;
               is_calibrating := true;
               calibration_complete := false;
               calibration_thresholds := calibration_thresholds c;
               base_hand_size := base_hand_size c |} in
  (c', {| step := current_step c' + 1;
          total_steps := length calibration_steps;
          gesture := nth (current_step c') calibration_steps "";
          message := "Step 1/" +:+ pretty (length calibration_steps)
                     +:+ ": Show OPEN HAND" |}).

Definition _calculate_hand_size (lms : list landmark) : R :=
  if decide (length lms < 10)%nat then 100%R
  else
    let wrist := item lms 0 in
    let middle_mcp := item lms 9 in
    let dx := (lm_x wrist - lm_x middle_mcp)%Z in
    let dy := (lm_y wrist - lm_y middle_mcp)%Z in
    sqrt (IZR (dx * dx + dy * dy)).

(** Finger name, tip index, PIP index. *)
Definition finger_data : list (string * nat * nat) :=
  [("thumb", 4, 3); ("index", 8, 6); ("middle", 12, 10);
   ("ring", 16, 14); ("pinky", 20, 18)]%nat.

Definition _get_finger_states (lms : list landmark) : gmap string bool :=
  foldl (fun states '(name, tip_idx, pip_idx) =>
           if bool_decide (tip_idx < length lms)%nat && bool_decide (pip_idx < length lms)%nat
           then
             let tip_y := lm_y (item lms tip_idx) in
             let pip_y := lm_y (item lms pip_idx) in
             <[name := bool_decide (tip_y < pip_y)%Z]> states
           else states)
        ∅ finger_data.

(** [process_calibration_step(landmarks, frame=None)].  [now] is the
    reading [cv2.getTickCount() / cv2.getTickFrequency()] of the clock at
    the call.  The optional [frame] is only drawn on and is left out.
    [None] and the empty list are both falsy landmarks and are the empty
    list here. *)
Definition process_calibration_step (lms : list landmark) (now : R)
    (c : Calibrator) : outcome (Calibrator * option Progress) :=
  if bool_decide (lms = []) || negb (is_calibrating c) then Returns (c, None)
  else
    match calibration_steps !! current_step c with
    | None => RaisesIndexError
    | Some step_name =>
        let hs := _calculate_hand_size lms in
        let data :=
          match calibration_data c !! step_name with
          | Some _ => calibration_data c
          | None =>
              <[step_name := {| hand_size := hs;
                                landmarks := lms;
                                finger_states := _get_finger_states lms;
                                timestamp := now |}]> (calibration_data c)
          end in
        Returns
          ({| current_step := current_step c;
              calibration_data := data;
              is_calibrating := is_calibrating c;
              calibration_complete := calibration_complete c;
              calibration_thresholds := calibration_thresholds c;
              base_hand_size := base_hand_size c |},
           Some {| p_step := current_step c + 1;
                   p_total_steps := length calibration_steps;
                   p_gesture := step_name;
                   p_hand_size := hs;
                   progress := (INR (current_step c + 1)
                                / INR (length calibration_steps))%R |})
    end.

(** The loop [for finger in open_states: if finger in fist_states: ...]
    of [_calculate_thresholds].  Each iteration writes its own key, so the
    order in which the keys are visited does not show in the result. *)
Definition finger_thresholds (base : R) (open_states fist_states : gmap string bool)
    (acc : gmap string R) : gmap string R :=
  map_fold (fun finger _ th =>
              if decide (is_Some (fist_states !! finger))
              then <[finger := (base * 0.12)%R]> th
              else th)
           acc open_states.

Definition _calculate_thresholds (c : Calibrator) : Calibrator * result_message :=
  match calibration_data c !! "open_hand" with
  | None => (c, Text "Calibration failed: Missing open hand data")
  | Some open_hand_data =>
      let base := hand_size open_hand_data in
      let th0 : gmap string R := ∅ in
      let th1 :=
        match calibration_data c !! "open_hand", calibration_data c !! "fist" with
        | Some oh, Some fi =>
            finger_thresholds base (finger_states oh) (finger_states fi) th0
        | _, _ => th0
        end in
      let th2 :=
        match calibration_data c !! "pinch" with
        | Some pinch_data =>
            if decide (9 <= length (landmarks pinch_data))%nat then
              let thumb_tip := item (landmarks pinch_data) 4 in
              let index_tip := item (landmarks pinch_data) 8 in
              let dx := (lm_x thumb_tip - lm_x index_tip)%Z in
              let dy := (lm_y thumb_tip - lm_y index_tip)%Z in
              let pinch_distance := sqrt (IZR (dx * dx + dy * dy)) in
              <["pinch" := (pinch_distance * 1.5)%R]> th1
            else th1
        | None => th1
        end in
      ({| current_step := current_step c;
          calibration_data := calibration_data c;
          is_calibrating := is_calibrating c;
          calibration_complete := calibration_complete c;
          calibration_thresholds := Some th2;
          base_hand_size := Some base |},
       CompleteHandSize base)
  end.

Definition next_step (c : Calibrator) : Calibrator * NextResult :=
  if decide (current_step c < length calibration_steps - 1)%nat then
    let c' := {| current_step := current_step c + 1;
                 calibration_data := calibration_data c;
                 is_calibrating := is_calibrating c;
                 calibration_complete := calibration_complete c;
                 calibration_thresholds := calibration_thresholds c;
                 base_hand_size := base_hand_size c |} in
    (c', Advanced
           {| step := current_step c' + 1;
              total_steps := length calibration_steps;
              gesture := nth (current_step c') calibration_steps "";
              message := "Step " +:+ pretty (current_step c' + 1) +:+ "/"
                         +:+ pretty (length calibration_steps) +:+ ": "
                         +:+ upper (nth (current_step c') calibration_steps "") |})
  else
    let c1 := {| current_step := current_step c;
                 calibration_data := calibration_data c;
                 is_calibrating := false;
                 calibration_complete := true;
                 calibration_thresholds := calibration_thresholds c;
                 base_hand_size := base_hand_size c |} in
    let '(c2, result) := _calculate_thresholds c1 in
    (c2, Completed {| complete := true;
                      c_message := result;
                      thresholds := calibration_thresholds c2;
                      c_base_hand_size := base_hand_size c2 |}).

Definition get_gesture_thresholds (c : Calibrator) : option (gmap string R) :=
  calibration_thresholds c.

Definition get_base_hand_size (c : Calibrator) : R :=
  match base_hand_size c with
  | Some v => v
  | None => 100%R
  end.

Definition reset (c : Calibrator) : Calibrator :=
  {| current_step := 0;
     calibration_data := ∅;
     is_calibrating := false;
     calibration_complete := false;
     calibration_thresholds := None;
     base_hand_size := None |}.

End GestureCalibrator.

Module HandTracker.

(** One detected hand of [self.results.multi_hand_landmarks]: the
    normalised [(lm.x, lm.y)] of its landmarks, in order. *)
Definition hand : Type := list (R * R).

(** The attributes of the tracker that smoothing and stability use.
    [results] is [None] when the attribute is missing or when the detector
    reported no hands. *)
Record Tracker : Type := mkTracker {
  landmark_buffer : list (list landmark);
  position_buffer : list (Z * Z);
  results : option (list hand);
  hand_stability_counter : Z
}.

Definition smoothing_buffer_size : nat := 5.

Definition __init__ : Tracker :=
  {| landmark_buffer := [];
     position_buffer := [];
     results := None;
     hand_stability_counter := 0%Z |}.

(** [deque.append] on a [deque(maxlen=maxlen)] with [0 < maxlen]: a full
    deque drops its oldest entry. *)
Definition deque_append {A : Type} (maxlen : nat) (d : list A) (x : A) : list A :=
  if decide (length d < maxlen)%nat then d ++ [x] else drop 1 d ++ [x].

(** [int(r)]: truncation towards zero. *)
Definition py_int (r : R) : Z :=
  if decide (r < 0)%R then (- Int_part (- r))%Z else Int_part r.

(** [np.linspace(start, stop, num)]: evenly spaced, the last sample being
    [stop] itself. *)
Definition np_linspace (start stop : R) (num : nat) : list R :=
  match num with
  | O => []
  | S O => [start]
  | S (S _ as div) =>
      map (fun j => (start + IZR (Z.of_nat j) * ((stop - start) / IZR (Z.of_nat div)))%R)
          (seq 0 div) ++ [stop]
  end.

(** [a.sum()] and [np.mean(a)] of a one-dimensional array. *)
Definition np_sum (a : list R) : R := foldl Rplus 0%R a.

Definition np_mean (a : list R) : R := (np_sum a / IZR (Z.of_nat (length a)))%R.

(** [weights = np.linspace(0.3, 1.0, n); weights = weights / weights.sum()] *)
Definition smoothing_weights (n : nat) : list R :=
  let weights := np_linspace 0.3 1.0 n in
  let total := np_sum weights in
  map (fun w => (w / total)%R) weights.

(** The inner loop over the buffered frames for the landmark [i]: the
    pair [(avg_x, avg_y)] before truncation. *)
Definition weighted_average (weights : list R) (buffer : list (list landmark))
    (i : nat) : R * R :=
  foldl (fun '(avg_x, avg_y) '(j, lms) =>
           if bool_decide (i < length lms)%nat then
             let weight := nth j weights 0%R in
             ((avg_x + IZR (lm_x (item lms i)) * weight)%R,
              (avg_y + IZR (lm_y (item lms i)) * weight)%R)
           else (avg_x, avg_y))
        (0%R, 0%R) (imap (fun j lms => (j, lms)) buffer).

Definition smoothed_landmarks (h w : Z) (buffer : list (list landmark))
    : list landmark :=
  let weights := smoothing_weights (length buffer) in
  map (fun i =>
         let '(avg_x, avg_y) := weighted_average weights buffer i in
         (Z.of_nat i,
          Z.max 0 (Z.min (w - 1) (py_int avg_x)),
          Z.max 0 (Z.min (h - 1) (py_int avg_y))))
      (seq 0 21).

(** The loop of [check_landmark_stability] over [zip(frame1, frame2)]. *)
Definition distances_loop (frame1 frame2 : list landmark) : list R :=
  foldl (fun distances '((i1, x1, y1), (i2, x2, y2)) =>
           if decide (i1 = i2)
           then distances ++ [sqrt (IZR ((x2 - x1) ^ 2 + (y2 - y1) ^ 2))]
           else distances)
        [] (zip frame1 frame2).

Definition check_landmark_stability (landmark_frames : list (list landmark))
    (threshold : R) : bool :=
  if decide (length landmark_frames < 2)%nat then false
  else
    let frame1 := nth 0 landmark_frames [] in
    let frame2 := List.last landmark_frames [] in
    if decide (length frame1 ≠ length frame2) then false
    else
      let distances := distances_loop frame1 frame2 in
      match distances with
      | [] => false
      | _ :: _ => bool_decide (np_mean distances < threshold)%R
      end.

(** The update of the counter after one stability evaluation. *)
Definition update_counter (stable : bool) (counter : Z) : Z :=
  if stable then (counter + 1)%Z else Z.max 0 (counter - 1).

(** [(i, x, y)] for each detected landmark, clamped into the frame. *)
Definition current_landmarks (h w : Z) (hd : hand) : list landmark :=
  imap (fun i lm =>
          (Z.of_nat i,
           Z.max 0 (Z.min (py_int (lm.1 * IZR w)) (w - 1)),
           Z.max 0 (Z.min (py_int (lm.2 * IZR h)) (h - 1))))
       hd.

(** [get_landmarks_list(frame, hand_index)], with [h, w, _ = frame.shape].
    The [except] branch is not reachable here: on integers and reals none
    of the operations of the [try] block raises. *)
Definition get_landmarks_list (h w : Z) (hand_index : nat) (t : Tracker)
    : Tracker * list landmark :=
  match results t ≫= (fun hands => hands !! hand_index) with
  | None =>
      ({| landmark_buffer := landmark_buffer t;
          position_buffer := position_buffer t;
          results := results t;
          hand_stability_counter := 0%Z |}, [])
  | Some hd =>
      let current := current_landmarks h w hd in
      let buffer := deque_append smoothing_buffer_size (landmark_buffer t) current in
      if decide (2 <= length buffer)%nat then
        let smoothed := smoothed_landmarks h w buffer in
        let counter :=
          if decide (3 <= length buffer)%nat then
            let recent_frames := drop (length buffer - 3) buffer in
            let stable := check_landmark_stability recent_frames 10 in
            update_counter stable (hand_stability_counter t)
          else hand_stability_counter t in
        ({| landmark_buffer := buffer;
            position_buffer := position_buffer t;
            results := results t;
            hand_stability_counter := counter |}, smoothed)
      else
        ({| landmark_buffer := buffer;
            position_buffer := position_buffer t;
            results := results t;
            hand_stability_counter := hand_stability_counter t |}, current)
  end.

Definition get_hand_stability (t : Tracker) : R :=
  if decide (hand_stability_counter t = 0)%Z then 0%R
  else
    let stability_frames := Z.min (hand_stability_counter t) 10 in
    (IZR stability_frames / 10 * 100)%R.

Definition reset_buffers (t : Tracker) : Tracker :=
  {| landmark_buffer := [];
     position_buffer := [];
     results := results t;
     hand_stability_counter := 0%Z |}.

(** [process(frame)] as far as the tracker state goes: the detector's
    answer for the frame is stored in [self.results].  [detected] holds
    the coordinates as [get_landmarks_list] reads them afterwards, that is
    after the rescaling in place that [process] does when it draws. *)
Definition process (detected : option (list hand)) (t : Tracker) : Tracker :=
  {| landmark_buffer := landmark_buffer t;
     position_buffer := position_buffer t;
     results := detected;
     hand_stability_counter := hand_stability_counter t |}.

End HandTracker.


(** ** Calibration sessions *)

Module CalibrationSession.
Import GestureCalibrator.

(** The finger names of [finger_data]. *)
Definition finger_names : list string := (fun d => d.1.1) <$> finger_data.

(** What the caller does with a calibrator between two queries. *)
Inductive event : Type :=
  | Process (lms : list landmark) (now : R)
  | Next.

(** Runs the calls in order and collects what each [next_step] returned. *)
Fixpoint run (evs : list event) (c : Calibrator)
    : outcome (Calibrator * list NextResult) :=
  match evs with
  | [] => Returns (c, [])
  | Process lms now :: evs' =>
      match process_calibration_step lms now c with
      | Returns (c', _) => run evs' c'
      | RaisesIndexError => RaisesIndexError
      end
  | Next :: evs' =>
      let '(c', r) := next_step c in
      match run evs' c' with
      | Returns (c'', rs) => Returns (c'', r :: rs)
      | RaisesIndexError => RaisesIndexError
      end
  end.

(** The number of [next_step] calls among the events. *)
Fixpoint advances (evs : list event) : nat :=
  match evs with
  | [] => 0
  | Process _ _ :: evs' => advances evs'
  | Next :: evs' => S (advances evs')
  end.

(** The gesture a [next_step] result names; none when it reports
    completion. *)
Definition gesture_of (r : NextResult) : option string :=
  match r with
  | Advanced info => Some (gesture info)
  | Completed _ => None
  end.

Definition completion_of (r : NextResult) : option Completion :=
  match r with
  | Advanced _ => None
  | Completed c => Some c
  end.

(** A result that reports completion carries [complete = True]. *)
Definition completion_flag (r : NextResult) : Prop :=
  match r with
  | Advanced _ => True
  | Completed c => complete c = true
  end.

(** What five [next_step] calls after [start_calibration] are to name,
    in order; the last one names no gesture. *)
Definition expected_gestures : list (option string) :=
  [Some "fist"; Some "pinch"; Some "pointing"; Some "victory"; None].

(** The state in which the final [next_step] calls
    [_calculate_thresholds]. *)
Definition finishing (c : Calibrator) : Calibrator :=
  {| current_step := current_step c;
     calibration_data := calibration_data c;
     is_calibrating := false;
     calibration_complete := true;
     calibration_thresholds := calibration_thresholds c;
     base_hand_size := base_hand_size c |}.

(** Every captured snapshot belongs to a step the session has reached. *)
Definition slots_within (c : Calibrator) : Prop :=
  ∀ name s, calibration_data c !! name = Some s →
    ∃ i, (i <= current_step c)%nat ∧ calibration_steps !! i = Some name.

(** Frames fed to [process_calibration_step] one after the other. *)
Definition feed (frames : list (list landmark * R)) (c : Calibrator)
    : outcome (Calibrator * list NextResult) :=
  run ((fun f => Process f.1 f.2) <$> frames) c.

(** Example frames: 21 landmarks each.  In [open_hand_frame] the wrist is
    at (100, 300) and the middle-finger base at (100, 100), 200 apart, and
    every tip is above its joint.  In [fist_frame] every tip is below its
    joint.  In [pinch_frame] the thumb tip is at (100, 100) and the index
    tip at (106, 108), 10 apart. *)
Definition open_hand_frame : list landmark :=
  [(0, 100, 300); (1, 80, 260); (2, 60, 230); (3, 50, 200); (4, 40, 170);
   (5, 80, 120); (6, 80, 90); (7, 80, 70); (8, 80, 50);
   (9, 100, 100); (10, 100, 80); (11, 100, 60); (12, 100, 40);
   (13, 120, 120); (14, 120, 95); (15, 120, 75); (16, 120, 55);
   (17, 140, 140); (18, 140, 120); (19, 140, 105); (20, 140, 90)]%Z.

Definition fist_frame : list landmark :=
  [(0, 100, 300); (1, 80, 260); (2, 60, 230); (3, 70, 200); (4, 85, 210);
   (5, 80, 120); (6, 80, 100); (7, 80, 120); (8, 80, 140);
   (9, 100, 100); (10, 100, 90); (11, 100, 115); (12, 100, 135);
   (13, 120, 120); (14, 120, 105); (15, 120, 125); (16, 120, 140);
   (17, 140, 140); (18, 140, 125); (19, 140, 140); (20, 140, 150)]%Z.

Definition pinch_frame : list landmark :=
  [(0, 100, 300); (1, 80, 260); (2, 60, 230); (3, 80, 150); (4, 100, 100);
   (5, 80, 120); (6, 90, 115); (7, 100, 110); (8, 106, 108);
   (9, 100, 100); (10, 100, 80); (11, 100, 60); (12, 100, 40);
   (13, 120, 120); (14, 120, 95); (15, 120, 75); (16, 120, 55);
   (17, 140, 140); (18, 140, 120); (19, 140, 105); (20, 140, 90)]%Z.

(** A calibrator that completed one calibration with [open_hand_frame]
    and [fist_frame], and was then started again and advanced to the last
    step without any frame being processed. *)
Definition after_first_calibration : Calibrator :=
  let c0 := (start_calibration 640 480 __init__).1 in
  match run [Process open_hand_frame 1; Next; Process fist_frame 2; Next;
             Next; Next; Next] c0 with
  | Returns (c, _) => c
  | RaisesIndexError => c0
  end.

Definition recalibration_without_frames : Calibrator :=
  let c0 := (start_calibration 640 480 after_first_calibration).1 in
  match run [Next; Next; Next; Next] c0 with
  | Returns (c, _) => c
  | RaisesIndexError => c0
  end.

(** A first session that went to the last step without any frame. *)
Definition first_session_without_frames : Calibrator :=
  let c0 := (start_calibration 640 480 __init__).1 in
  match run [Next; Next; Next; Next] c0 with
  | Returns (c, _) => c
  | RaisesIndexError => c0
  end.

(** A first session at its last step, with the three example frames
    captured in the first three steps. *)
Definition session_with_three_snapshots : Calibrator :=
  let c0 := (start_calibration 640 480 __init__).1 in
  match run [Process open_hand_frame 1; Next; Process fist_frame 2; Next;
             Process pinch_frame 3; Next; Next] c0 with
  | Returns (c, _) => c
  | RaisesIndexError => c0
  end.

Definition snapshot_of (lms : list landmark) (now : R) : Snapshot :=
  {| hand_size := _calculate_hand_size lms;
     landmarks := lms;
     finger_states := _get_finger_states lms;
     timestamp := now |}.

End CalibrationSession.

(** ** Tracking sessions *)

Module TrackingSession.
Import HandTracker.

(** The displacements the design document speaks of: for the positions at
    which both frames carry the same landmark index, the Euclidean
    distance between the two landmarks. *)
Definition matching_displacements (frame1 frame2 : list landmark) : list R :=
  (fun pq => euclidean_distance pq.1 pq.2)
    <$> filter (fun pq => lm_id pq.1 = lm_id pq.2) (zip frame1 frame2).

(** What the caller does with a tracker: [process] on a frame, for which
    the detector answers [detected]; [get_landmarks_list] on a frame of
    height [h] and width [w]; [reset_buffers]. *)
Inductive event : Type :=
  | Detect (detected : option (list hand))
  | GetLandmarks (h w : Z) (hand_index : nat)
  | ResetBuffers.

Definition step (t : Tracker) (ev : event) : Tracker :=
  match ev with
  | Detect detected => process detected t
  | GetLandmarks h w hand_index => (get_landmarks_list h w hand_index t).1
  | ResetBuffers => reset_buffers t
  end.

Definition run (evs : list event) (t : Tracker) : Tracker := foldl step t evs.

(** A frame as [get_landmarks_list] pushes it: the clamped landmarks of
    some detected hand. *)
Definition pushed_frame (f : list landmark) : Prop :=
  ∃ h w hd, f = current_landmarks h w hd.

(** A call of [get_landmarks_list] in the state [t] reaches the stability
    check and the check answers [stable]. *)
Definition evaluates (stable : bool) (h w : Z) (hand_index : nat) (t : Tracker)
    : Prop :=
  ∃ hd, results t ≫= (fun hands => hands !! hand_index) = Some hd ∧
    let buffer := deque_append smoothing_buffer_size (landmark_buffer t)
                    (current_landmarks h w hd) in
    (3 <= length buffer)%nat ∧
    check_landmark_stability (drop (length buffer - 3) buffer) 10 = stable.

(** [stable_streak n t t']: from [t] to [t'] there were [n] calls of
    [get_landmarks_list], each of which evaluated stability and found the
    hand stable, with [process] calls in between. *)
Inductive stable_streak : nat → Tracker → Tracker → Prop :=
  | streak_start t : stable_streak 0 t t
  | streak_detect n t t' detected :
      stable_streak n t t' → stable_streak n t (process detected t')
  | streak_stable n t t' h w hand_index :
      stable_streak n t t' → evaluates true h w hand_index t' →
      stable_streak (S n) t (get_landmarks_list h w hand_index t').1.

(** A frame whose 21 landmarks all sit at the pixel [(x, y)], and a
    detected hand whose 21 landmarks all sit at the normalised position
    [(a, b)]. *)
Definition uniform_frame (x y : Z) : list landmark :=
  (fun i => (Z.of_nat i, x, y)) <$> seq 0 21.

Definition uniform_hand (a b : R) : hand := replicate 21 (a, b).

(** Three frames of 512 by 512 pixels: the hand rests at the origin for
    two frames and is at a sixteenth of the width, 16 pixels, in the
    third.  [get_landmarks_list] is called once per frame; the three
    landmark lists it returns are collected. *)
Definition jump_frames : list hand :=
  [uniform_hand 0 0; uniform_hand 0 0; uniform_hand 0.03125 0].

Fixpoint track (frames : list hand) (t : Tracker) : Tracker * list (list landmark) :=
  match frames with
  | [] => (t, [])
  | hd :: frames' =>
      let '(t1, out) := get_landmarks_list 512 512 0 (process (Some [hd]) t) in
      let '(t2, outs) := track frames' t1 in
      (t2, out :: outs)
  end.

(** A tracker that has seen a hand resting at the origin: [k] buffered
    frames and a counter [c]. *)
Definition resting (k : nat) (c : Z) : Tracker :=
  {| landmark_buffer := replicate k (uniform_frame 0 0);
     position_buffer := [];
     results := Some [uniform_hand 0 0];
     hand_stability_counter := c |}.

End TrackingSession.

(** ** The calibrator under arbitrary use *)

Module CalibratorUse.
Import GestureCalibrator CalibrationSession.

(** Any call of the public methods that change the calibrator. *)
Inductive op : Type :=
  | OpStart (frame_width frame_height : Z)
  | OpProcess (lms : list landmark) (now : R)
  | OpNext
  | OpReset.

Definition apply_op (c : Calibrator) (o : op) : outcome Calibrator :=
  match o with
  | OpStart w h => Returns (start_calibration w h c).1
  | OpProcess lms now =>
      match process_calibration_step lms now c with
      | Returns (c', _) => Returns c'
      | RaisesIndexError => RaisesIndexError
      end
  | OpNext => Returns (next_step c).1
  | OpReset => Returns (reset c)
  end.

Fixpoint run_ops (ops : list op) (c : Calibrator) : outcome Calibrator :=
  match ops with
  | [] => Returns c
  | o :: ops' =>
      match apply_op c o with
      | Returns c' => run_ops ops' c'
      | RaisesIndexError => RaisesIndexError
      end
  end.

(** A snapshot holds what the code computes from its own landmarks. *)
Definition snapshot_coherent (s : Snapshot) : Prop :=
  landmarks s ≠ [] ∧
  hand_size s = _calculate_hand_size (landmarks s) ∧
  finger_states s = _get_finger_states (landmarks s).

(** What holds of the calibrator after any sequence of calls. *)
Record well_formed (c : Calibrator) : Prop := mk_well_formed {
  wf_step : (current_step c <= 4)%nat;
  wf_slots : slots_within c;
  wf_snapshots : ∀ name s, calibration_data c !! name = Some s → snapshot_coherent s;
  wf_flags : is_calibrating c = true → calibration_complete c = false;
  wf_derived : calibration_thresholds c = None ↔ base_hand_size c = None
}.

(** Example: a session is started and the open hand is shown. *)
Definition open_hand_shown : Calibrator :=
  match run_ops [OpStart 640 480; OpProcess open_hand_frame 1] __init__ with
  | Returns c => c
  | RaisesIndexError => __init__
  end.

(** What the [next_step] calls of a run returned. *)
Definition run_results (evs : list event) (c : Calibrator) : list NextResult :=
  match run evs c with
  | Returns (_, rs) => rs
  | RaisesIndexError => []
  end.

(** The calibrator a run ends in. *)
Definition run_state (evs : list event) (c : Calibrator) : Calibrator :=
  match run evs c with
  | Returns (c', _) => c'
  | RaisesIndexError => c
  end.

End CalibratorUse.

(** ** The remaining queries of the tracker *)

Module HandTrackerQueries.
Import HandTracker.

(** [np.var(a)]: the mean of the squared deviations from the mean. *)
Definition np_var (a : list R) : R :=
  np_mean ((fun x => (x - np_mean a) ^ 2)%R <$> a).

(** The weighted moving average of [get_index_tip] over the buffered
    positions, before truncation. *)
Definition weighted_position (weights : list R) (positions : list (Z * Z)) : R * R :=
  foldl (fun '(avg_x, avg_y) '(i, (x, y)) =>
           ((avg_x + IZR x * nth i weights 0%R)%R,
            (avg_y + IZR y * nth i weights 0%R)%R))
        (0%R, 0%R) (imap (fun i p => (i, p)) positions).

(** [get_index_tip(frame, hand_index)].  [next((p for p in landmarks if
    p[0] == 8), None)] is the first landmark whose index is 8; the tuple
    found is never falsy.  As in [get_landmarks_list], nothing in the [try]
    block raises on integers and reals. *)
Definition get_index_tip (h w : Z) (hand_index : nat) (t : Tracker)
    : Tracker * option (Z * Z) :=
  let '(t1, lms) := get_landmarks_list h w hand_index t in
  if bool_decide (lms = []) || bool_decide (length lms < 9)%nat then (t1, None)
  else
    match List.find (fun p => bool_decide (lm_id p = 8%Z)) lms with
    | None => (t1, None)
    | Some index_tip =>
        let current_pos := (lm_x index_tip, lm_y index_tip) in
        let positions :=
          deque_append smoothing_buffer_size (position_buffer t1) current_pos in
        let t2 := {| landmark_buffer := landmark_buffer t1;
                     position_buffer := positions;
                     results := results t1;
                     hand_stability_counter := hand_stability_counter t1 |} in
        if decide (2 <= length positions)%nat then
          let weights := smoothing_weights (length positions) in
          let '(avg_x, avg_y) := weighted_position weights positions in
          (t2, Some (py_int avg_x, py_int avg_y))
        else (t2, Some current_pos)
    end.

(** [get_hand_center(frame, hand_index)].  With exactly 9 landmarks
    [landmarks[9]] raises [IndexError], which the [except] turns into
    [None]. *)
Definition get_hand_center (h w : Z) (hand_index : nat) (t : Tracker)
    : Tracker * option (Z * Z) :=
  let '(t1, lms) := get_landmarks_list h w hand_index t in
  if bool_decide (lms = []) || bool_decide (length lms < 9)%nat then (t1, None)
  else
    match lms !! 0%nat, lms !! 9%nat with
    | Some wrist, Some middle_mcp =>
        let center_x := ((lm_x wrist + lm_x middle_mcp) `div` 2)%Z in
        let center_y := ((lm_y wrist + lm_y middle_mcp) `div` 2)%Z in
        (t1, Some (center_x, center_y))
    | _, _ => (t1, None)
    end.

(** [is_hand_stable(threshold)], with the default threshold 10 left to
    the caller. *)
Definition is_hand_stable (threshold : R) (t : Tracker) : bool :=
  if decide (length (position_buffer t) < 3)%nat then false
  else
    let positions := drop (length (position_buffer t) - 3) (position_buffer t) in
    let xs := (fun p : Z * Z => IZR p.1) <$> positions in
    let ys := (fun p : Z * Z => IZR p.2) <$> positions in
    let var_x := np_var xs in
    let var_y := np_var ys in
    bool_decide (var_x < threshold)%R && bool_decide (var_y < threshold)%R.

(** [calibrate(landmarks)]: the value of [self.hand_size_reference] after
    the call, given its value before.  This attribute is read nowhere in
    the tracker and is kept outside [Tracker]. *)
Definition calibrate (lms : list landmark) (hand_size_reference : R) : R :=
  if bool_decide (lms ≠ []) && bool_decide (21 <= length lms)%nat then
    let wrist := item lms 0 in
    let middle_mcp := item lms 9 in
    let dx := (lm_x wrist - lm_x middle_mcp)%Z in
    let dy := (lm_y wrist - lm_y middle_mcp)%Z in
    sqrt (IZR (dx * dx + dy * dy))
  else hand_size_reference.

(** Any call of the methods that change the tracker. *)
Inductive call : Type :=
  | CallProcess (detected : option (list hand))
  | CallLandmarks (h w : Z) (hand_index : nat)
  | CallIndexTip (h w : Z) (hand_index : nat)
  | CallHandCenter (h w : Z) (hand_index : nat)
  | CallResetBuffers.

Definition exec (t : Tracker) (c : call) : Tracker :=
  match c with
  | CallProcess detected => process detected t
  | CallLandmarks h w hand_index => (get_landmarks_list h w hand_index t).1
  | CallIndexTip h w hand_index => (get_index_tip h w hand_index t).1
  | CallHandCenter h w hand_index => (get_hand_center h w hand_index t).1
  | CallResetBuffers => reset_buffers t
  end.

Definition run_calls (cs : list call) (t : Tracker) : Tracker := foldl exec t cs.

(** The calls of a caller that, for each frame, runs the detector, which
    finds the one hand [hd], and reads the landmarks of that hand. *)
Definition frame_calls (h w : Z) (frames : list hand) : list call :=
  frames ≫= (fun hd => [CallProcess (Some [hd]); CallLandmarks h w 0]).

(** The number of calls that read the landmarks of a frame. *)
Fixpoint landmark_reads (cs : list call) : nat :=
  match cs with
  | [] => 0
  | (CallLandmarks _ _ _ | CallIndexTip _ _ _ | CallHandCenter _ _ _) :: cs' =>
      S (landmark_reads cs')
  | _ :: cs' => landmark_reads cs'
  end.

(** A landmark list as [get_landmarks_list] returns it for a frame of
    height [h] and width [w]: the entry at position [i] carries the index
    [i] and lies inside the frame. *)
Definition in_frame (h w : Z) (lms : list landmark) : Prop :=
  ∀ i p, lms !! i = Some p →
    lm_id p = Z.of_nat i ∧
    (0 <= lm_x p <= w - 1)%Z ∧ (0 <= lm_y p <= h - 1)%Z.

End HandTrackerQueries.
(** * Properties of the calibration session *)

Section CalibratorGeometry.
Import GestureCalibrator.

(** The integer expression under [np.sqrt] is the squared distance. *)
Lemma sqrt_squares_distance (p q : landmark) :
  sqrt (IZR ((lm_x p - lm_x q) * (lm_x p - lm_x q)
             + (lm_y p - lm_y q) * (lm_y p - lm_y q)))
  = euclidean_distance p q.
Proof.
  unfold euclidean_distance. f_equal.
  rewrite plus_IZR, !mult_IZR, !minus_IZR. ring.
Qed.

Lemma item_lookup (l : list landmark) (i : nat) :
  (i < length l)%nat → l !! i = Some (item l i).
Proof.
  intros Hi. unfold item.
  destruct (lookup_lt_is_Some_2 l i Hi) as [p Hp].
  rewrite Hp. f_equal. symmetry. by apply nth_lookup_Some.
Qed.

(** C8. A landmark list with fewer than 10 entries has hand size 100; a
    list with 10 or more entries has as hand size the Euclidean distance
    between its landmark 0 (wrist) and its landmark 9 (middle-finger
    base). *)
Theorem hand_size_fallback_or_wrist_to_mcp (lms : list landmark) :
  ((length lms < 10)%nat → _calculate_hand_size lms = 100%R) ∧
  ((10 <= length lms)%nat →
   ∃ wrist middle_mcp,
     lms !! 0%nat = Some wrist ∧ lms !! 9%nat = Some middle_mcp ∧
     _calculate_hand_size lms = euclidean_distance wrist middle_mcp).
Proof.
  unfold _calculate_hand_size. split; intros Hlen.
  - case_decide; [done | lia].
  - case_decide; [lia |].
    exists (item lms 0), (item lms 9).
    split; [apply item_lookup; lia |].
    split; [apply item_lookup; lia |].
    apply sqrt_squares_distance.
Qed.

Lemma hand_size_fallback_or_wrist_to_mcp_witness :
  _calculate_hand_size [(0, 10, 20)%Z] = 100%R ∧
  ∃ wrist middle_mcp,
    CalibrationSession.open_hand_frame !! 0%nat = Some wrist ∧
    CalibrationSession.open_hand_frame !! 9%nat = Some middle_mcp ∧
    _calculate_hand_size CalibrationSession.open_hand_frame
    = euclidean_distance wrist middle_mcp.
Proof.
  split.
  - apply (proj1 (hand_size_fallback_or_wrist_to_mcp [(0, 10, 20)%Z])).
    simpl. lia.
  - apply (proj2 (hand_size_fallback_or_wrist_to_mcp
                    CalibrationSession.open_hand_frame)).
    simpl. lia.
Defined.

End CalibratorGeometry.

Section CalibratorQueries.
Import GestureCalibrator.

(** C9. From any state, also after a completed calibration, [reset]
    puts [current_step] back to 0, empties the captured snapshots, clears
    [is_calibrating] and [calibration_complete], and leaves no threshold
    set: the query that follows returns [None]. *)
Theorem reset_discards_everything (c : Calibrator) :
  current_step (reset c) = 0%nat ∧
  calibration_data (reset c) = ∅ ∧
  is_calibrating (reset c) = false ∧
  calibration_complete (reset c) = false ∧
  get_gesture_thresholds (reset c) = None.
Proof. by repeat split. Qed.

(** The operations that do not complete a calibration leave both derived
    attributes as they are. *)
Lemma start_keeps_derived (w h : Z) (c : Calibrator) :
  calibration_thresholds (start_calibration w h c).1 = calibration_thresholds c ∧
  base_hand_size (start_calibration w h c).1 = base_hand_size c.
Proof. done. Qed.

Lemma process_keeps_derived (lms : list landmark) (now : R) (c c' : Calibrator)
    (p : option Progress) :
  process_calibration_step lms now c = Returns (c', p) →
  calibration_thresholds c' = calibration_thresholds c ∧
  base_hand_size c' = base_hand_size c.
Proof.
  unfold process_calibration_step. intros H.
  destruct (bool_decide (lms = []) || negb (is_calibrating c)).
  - by inversion H.
  - destruct (calibration_steps !! current_step c); [| done].
    by inversion H.
Qed.

Lemma advance_keeps_derived (c : Calibrator) :
  (current_step c < 4)%nat →
  calibration_thresholds (next_step c).1 = calibration_thresholds c ∧
  base_hand_size (next_step c).1 = base_hand_size c.
Proof.
  intros Hk. unfold next_step.
  case_decide as Hd; [done |]. simpl in Hd. lia.
Qed.

(** C10. A freshly created calibrator and a calibrator just reset have no
    threshold set, so [get_gesture_thresholds] returns [None], while
    [get_base_hand_size] returns the default 100 instead of reporting
    absence; starting a session, processing a frame and advancing before
    the last step change neither answer. *)
Theorem absent_thresholds_default_hand_size :
  (get_gesture_thresholds __init__ = None ∧ get_base_hand_size __init__ = 100%R) ∧
  (∀ c, get_gesture_thresholds (reset c) = None ∧
        get_base_hand_size (reset c) = 100%R) ∧
  (∀ c, get_gesture_thresholds c = None → get_base_hand_size c = 100%R →
     (∀ w h, get_gesture_thresholds (start_calibration w h c).1 = None ∧
             get_base_hand_size (start_calibration w h c).1 = 100%R) ∧
     (∀ lms now c' p, process_calibration_step lms now c = Returns (c', p) →
        get_gesture_thresholds c' = None ∧ get_base_hand_size c' = 100%R) ∧
     ((current_step c < 4)%nat →
        get_gesture_thresholds (next_step c).1 = None ∧
        get_base_hand_size (next_step c).1 = 100%R)).
Proof.
  split; [done |]. split; [done |].
  intros c Hth Hbase. unfold get_gesture_thresholds, get_base_hand_size in *.
  split; [| split].
  - intros w h. by destruct (start_keeps_derived w h c) as [-> ->].
  - intros lms now c' p Hp.
    by destruct (process_keeps_derived _ _ _ _ _ Hp) as [-> ->].
  - intros Hk. by destruct (advance_keeps_derived c Hk) as [-> ->].
Qed.

End CalibratorQueries.

Section ThresholdDerivation.
Import GestureCalibrator CalibrationSession.

(** What the finger loop leaves under each key. *)
Lemma finger_thresholds_lookup (base : R) (open_states fist_states : gmap string bool)
    (acc : gmap string R) (k : string) :
  finger_thresholds base open_states fist_states acc !! k
  = if decide (is_Some (open_states !! k) ∧ is_Some (fist_states !! k))
    then Some (base * 0.12)%R else acc !! k.
Proof.
  unfold finger_thresholds.
  pose (P := fun (r : gmap string R) (m : gmap string bool) =>
               r !! k = if decide (is_Some (m !! k) ∧ is_Some (fist_states !! k))
                        then Some (base * 0.12)%R else acc !! k).
  change (P (map_fold (fun finger (_ : bool) th =>
                         if decide (is_Some (fist_states !! finger))
                         then <[finger := (base * 0.12)%R]> th else th)
                      acc open_states) open_states).
  apply map_fold_weak_ind; unfold P; clear P.
  - rewrite lookup_empty. case_decide as H; [| done].
    destruct H as [[? ?] _]. done.
  - intros i x m r Hi IH.
    destruct (decide (i = k)) as [-> | Hne].
    + rewrite lookup_insert_eq.
      destruct (decide (is_Some (fist_states !! k))) as [Hf | Hf].
      * clear IH. rewrite lookup_insert_eq. case_decide as H; [done |].
        exfalso. apply H. split; [by eexists | done].
      * rewrite IH, Hi.
        destruct (decide (is_Some (@None bool) ∧ is_Some (fist_states !! k)))
          as [[[? ?] _] | _]; [done |].
        destruct (decide (is_Some (Some x) ∧ is_Some (fist_states !! k)))
          as [[_ ?] | _]; done.
    + rewrite (lookup_insert_ne m i k) by done.
      destruct (decide (is_Some (fist_states !! i))).
      * by rewrite lookup_insert_ne.
      * done.
Qed.

Lemma finger_name_not_pinch (finger : string) :
  finger ∈ finger_names → finger ≠ "pinch".
Proof.
  unfold finger_names. simpl. rewrite !elem_of_cons, elem_of_nil.
  intros [-> | [-> | [-> | [-> | [-> | []]]]]]; done.
Qed.

(** The final [next_step] on a state that holds an [open_hand] snapshot. *)
Lemma final_step_with_open_hand (c : Calibrator) (oh : Snapshot) :
  current_step c = 4%nat →
  calibration_data c !! "open_hand" = Some oh →
  ∃ c' r th,
    next_step c = (c', Completed r) ∧
    complete r = true ∧
    c_message r = CompleteHandSize (hand_size oh) ∧
    thresholds r = Some th ∧
    c_base_hand_size r = Some (hand_size oh) ∧
    get_gesture_thresholds c' = Some th ∧
    get_base_hand_size c' = hand_size oh ∧
    (∀ fi, calibration_data c !! "fist" = Some fi →
       ∀ k, k ≠ "pinch" →
         th !! k = if decide (is_Some (finger_states oh !! k)
                              ∧ is_Some (finger_states fi !! k))
                   then Some (hand_size oh * 0.12)%R else None) ∧
    (∀ pi, calibration_data c !! "pinch" = Some pi →
       (9 <= length (landmarks pi))%nat →
       th !! "pinch"
       = Some (euclidean_distance (item (landmarks pi) 4) (item (landmarks pi) 8)
               * 1.5)%R).
Proof.
  intros Hk Hoh. unfold next_step.
  case_decide as Hd; [simpl in Hd; lia |].
  unfold _calculate_thresholds. cbn [calibration_data]. rewrite Hoh.
  do 3 eexists. split; [reflexivity |].
  cbn [complete c_message thresholds c_base_hand_size calibration_thresholds
       base_hand_size get_gesture_thresholds get_base_hand_size].
  repeat (split; [reflexivity |]).
  split.
  - intros fi Hfi k Hne. rewrite Hfi.
    assert (Hfing := finger_thresholds_lookup (hand_size oh)
                       (finger_states oh) (finger_states fi) ∅ k).
    rewrite lookup_empty in Hfing.
    destruct (calibration_data c !! "pinch") as [pi |]; [| done].
    destruct (decide (9 <= length (landmarks pi))%nat); [| done].
    by rewrite lookup_insert_ne.
  - intros pi Hpi Hlen. rewrite Hpi.
    case_decide; [| lia].
    rewrite lookup_insert_eq. by rewrite sqrt_squares_distance.
Qed.

(** C1. On the final [next_step] of a session that captured [open_hand]:
    if a [fist] snapshot was captured too, every finger name present in
    both finger-state vectors gets the threshold [hand_size * 0.12] of the
    [open_hand] snapshot (24 for a hand size of 200); and if a [pinch]
    snapshot with at least 9 landmarks was captured, the pinch threshold is
    1.5 times the Euclidean distance between its landmarks 4 and 8 (15 for
    tips 10 apart). *)
Theorem thresholds_derived_on_completion (c : Calibrator) (oh : Snapshot) :
  current_step c = 4%nat →
  calibration_data c !! "open_hand" = Some oh →
  ∃ c' r th,
    next_step c = (c', Completed r) ∧
    thresholds r = Some th ∧
    get_gesture_thresholds c' = Some th ∧
    (∀ fi finger,
       calibration_data c !! "fist" = Some fi →
       finger ∈ finger_names →
       is_Some (finger_states oh !! finger) →
       is_Some (finger_states fi !! finger) →
       th !! finger = Some (hand_size oh * 0.12)%R ∧
       (hand_size oh = 200%R → th !! finger = Some 24%R)) ∧
    (∀ pi,
       calibration_data c !! "pinch" = Some pi →
       (9 <= length (landmarks pi))%nat →
       ∃ thumb_tip index_tip,
         landmarks pi !! 4%nat = Some thumb_tip ∧
         landmarks pi !! 8%nat = Some index_tip ∧
         th !! "pinch" = Some (euclidean_distance thumb_tip index_tip * 1.5)%R ∧
         (euclidean_distance thumb_tip index_tip = 10%R →
          th !! "pinch" = Some 15%R)).
Proof.
  intros Hk Hoh.
  destruct (final_step_with_open_hand c oh Hk Hoh)
    as (c' & r & th & Hnext & _ & _ & Hth & _ & Hget & _ & Hfingers & Hpinch).
  exists c', r, th. repeat (split; [done |]). split.
  - intros fi finger Hfi Hname Hopen Hfist.
    rewrite (Hfingers fi Hfi finger (finger_name_not_pinch finger Hname)).
    destruct (decide (is_Some (finger_states oh !! finger)
                      ∧ is_Some (finger_states fi !! finger))) as [_ | Hno];
      [| by destruct Hno].
    split; [done |]. intros ->. f_equal. lra.
  - intros pi Hpi Hlen.
    exists (item (landmarks pi) 4), (item (landmarks pi) 8).
    split; [apply item_lookup; lia |]. split; [apply item_lookup; lia |].
    rewrite (Hpinch pi Hpi Hlen). split; [done |].
    intros ->. f_equal. lra.
Qed.

Lemma thresholds_derived_on_completion_witness :
  ∃ c' r th,
    next_step session_with_three_snapshots = (c', Completed r) ∧
    thresholds r = Some th ∧
    get_gesture_thresholds c' = Some th ∧
    (∀ fi finger,
       calibration_data session_with_three_snapshots !! "fist" = Some fi →
       finger ∈ finger_names →
       is_Some (finger_states (snapshot_of open_hand_frame 1) !! finger) →
       is_Some (finger_states fi !! finger) →
       th !! finger = Some (hand_size (snapshot_of open_hand_frame 1) * 0.12)%R ∧
       (hand_size (snapshot_of open_hand_frame 1) = 200%R →
        th !! finger = Some 24%R)) ∧
    (∀ pi,
       calibration_data session_with_three_snapshots !! "pinch" = Some pi →
       (9 <= length (landmarks pi))%nat →
       ∃ thumb_tip index_tip,
         landmarks pi !! 4%nat = Some thumb_tip ∧
         landmarks pi !! 8%nat = Some index_tip ∧
         th !! "pinch" = Some (euclidean_distance thumb_tip index_tip * 1.5)%R ∧
         (euclidean_distance thumb_tip index_tip = 10%R →
          th !! "pinch" = Some 15%R)).
Proof.
  apply (thresholds_derived_on_completion session_with_three_snapshots
           (snapshot_of open_hand_frame 1)); vm_compute; reflexivity.
Defined.

(** C2, as the code has it. When no [open_hand] snapshot was captured, the
    final [next_step] reports the failure message and derives nothing: the
    threshold set and the base hand size of the calibrator stay exactly as
    they were before the call, and that is what the call returns and what
    later queries answer.  They are absent whenever none was held before. *)
Theorem failed_derivation_leaves_thresholds_untouched (c : Calibrator) :
  current_step c = 4%nat →
  calibration_data c !! "open_hand" = None →
  ∃ c' r,
    next_step c = (c', Completed r) ∧
    complete r = true ∧
    c_message r = Text "Calibration failed: Missing open hand data" ∧
    thresholds r = calibration_thresholds c ∧
    c_base_hand_size r = base_hand_size c ∧
    get_gesture_thresholds c' = get_gesture_thresholds c ∧
    (get_gesture_thresholds c = None →
     thresholds r = None ∧ get_gesture_thresholds c' = None).
Proof.
  intros Hk Hoh. unfold next_step.
  case_decide as Hd; [simpl in Hd; lia |].
  unfold _calculate_thresholds. cbn [calibration_data]. rewrite Hoh.
  do 2 eexists. split; [reflexivity |].
  cbn. repeat (split; [reflexivity |]).
  unfold get_gesture_thresholds. intros H. by rewrite H.
Qed.

Lemma failed_derivation_leaves_thresholds_untouched_witness :
  ∃ c' r,
    next_step first_session_without_frames = (c', Completed r) ∧
    complete r = true ∧
    c_message r = Text "Calibration failed: Missing open hand data" ∧
    thresholds r = calibration_thresholds first_session_without_frames ∧
    c_base_hand_size r = base_hand_size first_session_without_frames ∧
    get_gesture_thresholds c' = get_gesture_thresholds first_session_without_frames ∧
    (get_gesture_thresholds first_session_without_frames = None →
     thresholds r = None ∧ get_gesture_thresholds c' = None).
Proof.
  apply (failed_derivation_leaves_thresholds_untouched
           first_session_without_frames); vm_compute; reflexivity.
Defined.

(** C2 as worded fails after an earlier successful calibration: the
    session restarted by [start_calibration] captured no [open_hand]
    snapshot, its final [next_step] reports the failure, and yet the
    thresholds it returns and the later query are those of the earlier
    calibration. *)
Lemma stale_thresholds_after_failed_recalibration :
  let c := recalibration_without_frames in
  current_step c = 4%nat ∧
  calibration_data c !! "open_hand" = None ∧
  c_message <$> completion_of (next_step c).2
    = Some (Text "Calibration failed: Missing open hand data") ∧
  completion_of (next_step c).2 ≫= thresholds ≠ None ∧
  get_gesture_thresholds (next_step c).1 ≠ None.
Proof.
  assert (Hsome : ∀ (A : Type) (o : option A),
             match o with Some _ => True | None => False end → o ≠ None).
  { intros A [a |]; [discriminate | contradiction]. }
  repeat split; try (vm_compute; reflexivity);
    apply Hsome; vm_compute; exact I.
Qed.

End ThresholdDerivation.

Section StepProtocol.
Import GestureCalibrator CalibrationSession.

Lemma process_keeps_position (lms : list landmark) (now : R) (c c' : Calibrator)
    (p : option Progress) :
  process_calibration_step lms now c = Returns (c', p) →
  current_step c' = current_step c ∧ is_calibrating c' = is_calibrating c.
Proof.
  unfold process_calibration_step. intros H.
  destruct (bool_decide (lms = []) || negb (is_calibrating c)).
  - by inversion H.
  - destruct (calibration_steps !! current_step c); [| done].
    by inversion H.
Qed.

Lemma process_returns (lms : list landmark) (now : R) (c : Calibrator) :
  (current_step c <= 4)%nat →
  ∃ c' p, process_calibration_step lms now c = Returns (c', p).
Proof.
  intros Hk. unfold process_calibration_step.
  destruct (bool_decide (lms = []) || negb (is_calibrating c)); [by eauto |].
  destruct (lookup_lt_is_Some_2 calibration_steps (current_step c)) as [n Hn];
    [simpl; lia |].
  rewrite Hn. by eauto.
Qed.

Lemma advance_before_last (c : Calibrator) :
  (current_step c < 4)%nat →
  ∃ info,
    next_step c = ({| current_step := current_step c + 1;
                      calibration_data := calibration_data c;
                      is_calibrating := is_calibrating c;
                      calibration_complete := calibration_complete c;
                      calibration_thresholds := calibration_thresholds c;
                      base_hand_size := base_hand_size c |}, Advanced info) ∧
    step info = (current_step c + 2)%nat ∧
    calibration_steps !! (current_step c + 1)%nat = Some (gesture info) ∧
    expected_gestures !! current_step c = Some (Some (gesture info)).
Proof.
  intros Hk. unfold next_step.
  case_decide as Hd; [| simpl in Hd; lia].
  eexists. split; [reflexivity |]. cbn [step gesture current_step].
  split; [lia |].
  destruct (current_step c) as [| [| [| [| k]]]]; [done .. | lia].
Qed.

Lemma advance_on_last (c : Calibrator) :
  current_step c = 4%nat →
  ∃ r,
    next_step c = ((_calculate_thresholds (finishing c)).1, Completed r) ∧
    complete r = true ∧
    c_message r = (_calculate_thresholds (finishing c)).2 ∧
    thresholds r = calibration_thresholds (_calculate_thresholds (finishing c)).1 ∧
    current_step (next_step c).1 = 4%nat ∧
    is_calibrating (next_step c).1 = false ∧
    calibration_complete (next_step c).1 = true.
Proof.
  intros Hk. unfold next_step.
  case_decide as Hd; [simpl in Hd; lia |].
  fold (finishing c).
  assert (Hflags : current_step (_calculate_thresholds (finishing c)).1 = 4%nat ∧
                   is_calibrating (_calculate_thresholds (finishing c)).1 = false ∧
                   calibration_complete (_calculate_thresholds (finishing c)).1 = true).
  { unfold _calculate_thresholds.
    destruct (calibration_data (finishing c) !! "open_hand"); by cbn. }
  destruct (_calculate_thresholds (finishing c)) as [c2 msg].
  eexists. split; [reflexivity |]. cbn in *. by repeat split; try apply Hflags.
Qed.

(** What a run of frames and advances returns, from any step. *)
Lemma run_names_gestures (evs : list event) :
  ∀ c, (advances evs + current_step c <= 5)%nat → (current_step c <= 4)%nat →
    ∃ c' rs,
      run evs c = Returns (c', rs) ∧
      gesture_of <$> rs = take (advances evs) (drop (current_step c) expected_gestures) ∧
      Forall completion_flag rs ∧
      (current_step c' <= 4)%nat ∧
      is_calibrating c'
      = if decide (advances evs + current_step c = 5)%nat then false
        else is_calibrating c.
Proof.
  induction evs as [| [lms now |] evs IH]; intros c Hn Hk.
  - exists c, []. cbn. repeat split; [done | lia |].
    case_decide; [lia | done].
  - destruct (process_returns lms now c Hk) as (c1 & p & Hp).
    destruct (process_keeps_position _ _ _ _ _ Hp) as [Hstep Hcal].
    cbn [run advances] in *. rewrite Hp.
    destruct (IH c1) as (c' & rs & Hrun & Hg & Hf & Hk' & Hc); [lia .. |].
    exists c', rs. rewrite Hstep, Hcal in *. by repeat split.
  - cbn [run advances] in *.
    destruct (decide (current_step c < 4)%nat) as [Hlt | Hge].
    + destruct (advance_before_last c Hlt) as (info & Hnext & _ & _ & Hexp).
      rewrite Hnext.
      destruct (IH {| current_step := current_step c + 1;
                      calibration_data := calibration_data c;
                      is_calibrating := is_calibrating c;
                      calibration_complete := calibration_complete c;
                      calibration_thresholds := calibration_thresholds c;
                      base_hand_size := base_hand_size c |})
        as (c' & rs & Hrun & Hg & Hf & Hk' & Hc); [cbn; lia .. |].
      rewrite Hrun. exists c', (Advanced info :: rs). cbn in *.
      split; [done |]. split.
      { rewrite Hg. rewrite (drop_S _ _ _ Hexp). cbn.
        by replace (current_step c + 1)%nat with (S (current_step c)) by lia. }
      split; [by constructor |]. split; [done |].
      rewrite Hc. repeat case_decide; try done; lia.
    + assert (Hlast : current_step c = 4%nat) by lia.
      destruct (advance_on_last c Hlast) as (r & Hnext & Hcomp & _ & _ & Hs & Hcal & _).
      rewrite Hnext in *. cbn [fst] in *.
      destruct (IH (_calculate_thresholds (finishing c)).1)
        as (c' & rs & Hrun & Hg & Hf & Hk' & Hc); [lia .. |].
      rewrite Hrun. exists c', (Completed r :: rs). cbn.
      split; [done |]. split.
      { rewrite Hg, Hs, Hlast. by replace (advances evs) with 0%nat by lia. }
      split; [by constructor |]. split; [done |].
      rewrite Hc, Hcal. repeat case_decide; try done; lia.
Qed.

(** C3. [start_calibration] puts the session on [open_hand]; an advance
    before the last step moves to the next gesture of the fixed order; the
    advance on the last step, [victory], returns [complete = True], clears
    [is_calibrating] and returns what [_calculate_thresholds] derived.  So
    five advances after the start, with any frames processed in between,
    name fist, pinch, pointing and victory and then report completion. *)
Theorem five_advances_traverse_the_gestures (c0 : Calibrator) (w h : Z) :
  let c1 := (start_calibration w h c0).1 in
  (gesture (start_calibration w h c0).2 = "open_hand" ∧
   current_step c1 = 0%nat ∧ is_calibrating c1 = true) ∧
  (∀ c, (current_step c < 4)%nat →
     ∃ info,
       (next_step c).2 = Advanced info ∧
       current_step (next_step c).1 = (current_step c + 1)%nat ∧
       calibration_steps !! (current_step c + 1)%nat = Some (gesture info) ∧
       is_calibrating (next_step c).1 = is_calibrating c) ∧
  (∀ c, current_step c = 4%nat →
     calibration_steps !! current_step c = Some "victory" ∧
     ∃ r,
       next_step c = ((_calculate_thresholds (finishing c)).1, Completed r) ∧
       complete r = true ∧
       c_message r = (_calculate_thresholds (finishing c)).2 ∧
       thresholds r = calibration_thresholds (_calculate_thresholds (finishing c)).1 ∧
       is_calibrating (next_step c).1 = false) ∧
  (∀ evs, advances evs = 5%nat →
     ∃ fin i1 i2 i3 i4 r,
       run evs c1
       = Returns (fin, [Advanced i1; Advanced i2; Advanced i3; Advanced i4;
                        Completed r]) ∧
       gesture i1 = "fist" ∧ gesture i2 = "pinch" ∧
       gesture i3 = "pointing" ∧ gesture i4 = "victory" ∧
       complete r = true ∧ is_calibrating fin = false).
Proof.
  split; [done |]. split; [| split].
  - intros c Hk. destruct (advance_before_last c Hk) as (info & Hnext & _ & Hg & _).
    exists info. by rewrite Hnext.
  - intros c Hk. split; [by rewrite Hk |].
    destruct (advance_on_last c Hk) as (r & Hnext & Hcomp & Hmsg & Hth & _ & Hcal & _).
    by exists r.
  - intros evs Hn.
    destruct (run_names_gestures evs (start_calibration w h c0).1)
      as (fin & rs & Hrun & Hg & Hf & _ & Hcal); [cbn; lia .. |].
    rewrite Hn in Hg, Hcal. cbn in Hg, Hcal.
    destruct rs as [| [i1 | ?] [| [i2 | ?] [| [i3 | ?] [| [i4 | ?] [| [? | r] [| ? ?]]]]]];
      try discriminate Hg.
    injection Hg as H1 H2 H3 H4.
    exists fin, i1, i2, i3, i4, r. split; [done |].
    repeat (split; [done |]). split; [| done].
    do 4 (apply Forall_cons_1 in Hf as [_ Hf]).
    by apply Forall_cons_1 in Hf as [Hr _].
Qed.

Lemma five_advances_traverse_the_gestures_witness :
  ∃ fin i1 i2 i3 i4 r,
    run [Process open_hand_frame 1; Next; Process fist_frame 2; Next;
         Process pinch_frame 3; Process open_hand_frame 4; Next; Next; Next]
        (start_calibration 640 480 __init__).1
    = Returns (fin, [Advanced i1; Advanced i2; Advanced i3; Advanced i4;
                     Completed r]) ∧
    gesture i1 = "fist" ∧ gesture i2 = "pinch" ∧
    gesture i3 = "pointing" ∧ gesture i4 = "victory" ∧
    complete r = true ∧ is_calibrating fin = false.
Proof.
  apply (proj2 (proj2 (proj2
           (five_advances_traverse_the_gestures __init__ 640 480)))).
  reflexivity.
Defined.

End StepProtocol.

Section FirstSampleWins.
Import GestureCalibrator CalibrationSession.

(** Once the slot of the current step is taken, processing a frame changes
    nothing in the calibrator. *)
Lemma process_on_taken_slot (lms : list landmark) (now : R) (c : Calibrator)
    (step_name : string) (s : Snapshot) :
  calibration_steps !! current_step c = Some step_name →
  calibration_data c !! step_name = Some s →
  ∃ p, process_calibration_step lms now c = Returns (c, p).
Proof.
  intros Hname Hs. unfold process_calibration_step.
  destruct (bool_decide (lms = []) || negb (is_calibrating c)); [by eauto |].
  rewrite Hname, Hs. destruct c. by eauto.
Qed.

Lemma feed_on_taken_slot (frames : list (list landmark * R)) (c : Calibrator)
    (step_name : string) (s : Snapshot) :
  calibration_steps !! current_step c = Some step_name →
  calibration_data c !! step_name = Some s →
  feed frames c = Returns (c, []).
Proof.
  intros Hname Hs. unfold feed.
  induction frames as [| [lms now] frames IH]; [done |].
  cbn. destruct (process_on_taken_slot lms now c step_name s Hname Hs) as [p ->].
  apply IH.
Qed.

Lemma calibration_steps_NoDup : NoDup calibration_steps.
Proof. compute_done. Qed.

(** In a session the slot of a step is free until a frame is processed
    during that step: [start_calibration] empties the snapshots, frames
    only fill the slot of the current step, and an advance enters a step
    whose slot is free. *)
Lemma start_slots_within (w h : Z) (c : Calibrator) :
  slots_within (start_calibration w h c).1.
Proof. intros name s. cbn. by rewrite lookup_empty. Qed.

Lemma process_slots_within (lms : list landmark) (now : R) (c c' : Calibrator)
    (p : option Progress) :
  slots_within c →
  process_calibration_step lms now c = Returns (c', p) →
  slots_within c'.
Proof.
  intros Hin. unfold process_calibration_step.
  destruct (bool_decide (lms = []) || negb (is_calibrating c)).
  { intros [= <- _]. done. }
  destruct (calibration_steps !! current_step c) as [step_name |] eqn:Hname;
    [| done].
  intros [= <- _] name s. cbn.
  destruct (calibration_data c !! step_name) eqn:Hslot; [apply Hin |].
  destruct (decide (step_name = name)) as [<- | Hne].
  - intros _. by exists (current_step c).
  - rewrite lookup_insert_ne by done. apply Hin.
Qed.

Lemma advance_enters_free_slot (c : Calibrator) (name : string) :
  slots_within c → (current_step c < 4)%nat →
  calibration_steps !! (current_step c + 1)%nat = Some name →
  slots_within (next_step c).1 ∧
  calibration_data (next_step c).1 !! name = None.
Proof.
  intros Hin Hk Hname.
  destruct (advance_before_last c Hk) as (info & -> & _). cbn. split.
  - intros n s Hs. destruct (Hin n s Hs) as (i & Hi & Hn).
    exists i. cbn. split; [lia | done].
  - destruct (calibration_data c !! name) as [s |] eqn:Hs; [| done].
    destruct (Hin name s Hs) as (i & Hi & Hn).
    pose proof (NoDup_lookup _ _ _ _ calibration_steps_NoDup Hn Hname). lia.
Qed.

(** C4. While a step is active and holds no snapshot yet, the first
    [process_calibration_step] call with non-empty landmarks stores the
    snapshot of that call (hand size, landmarks, finger states, time
    stamp) under the step's name; any further calls during the same step,
    whatever their landmarks, leave the calibrator, and so that snapshot,
    unchanged. *)
Theorem first_sample_wins (c : Calibrator) (step_name : string)
    (lms : list landmark) (now : R) :
  is_calibrating c = true →
  calibration_steps !! current_step c = Some step_name →
  calibration_data c !! step_name = None →
  lms ≠ [] →
  ∃ c1 p,
    process_calibration_step lms now c = Returns (c1, Some p) ∧
    current_step c1 = current_step c ∧
    calibration_data c1 !! step_name
    = Some {| hand_size := _calculate_hand_size lms;
              landmarks := lms;
              finger_states := _get_finger_states lms;
              timestamp := now |} ∧
    ∀ later : list (list landmark * R),
      feed later c1 = Returns (c1, []).
Proof.
  intros Hcal Hname Hfree Hlms. unfold process_calibration_step.
  rewrite bool_decide_eq_false_2 by done. rewrite Hcal, Hname, Hfree. cbn.
  do 2 eexists. split; [reflexivity |]. cbn. split; [done |].
  split; [by rewrite lookup_insert_eq |].
  intros later. eapply feed_on_taken_slot; cbn; [done |].
  by rewrite lookup_insert_eq.
Qed.

Lemma first_sample_wins_witness :
  let c := (start_calibration 640 480 __init__).1 in
  ∃ c1 p,
    process_calibration_step open_hand_frame 1 c = Returns (c1, Some p) ∧
    current_step c1 = current_step c ∧
    calibration_data c1 !! "open_hand"
    = Some {| hand_size := _calculate_hand_size open_hand_frame;
              landmarks := open_hand_frame;
              finger_states := _get_finger_states open_hand_frame;
              timestamp := 1 |} ∧
    ∀ later : list (list landmark * R),
      feed later c1 = Returns (c1, []).
Proof.
  apply (first_sample_wins (start_calibration 640 480 __init__).1 "open_hand"
           open_hand_frame 1); [reflexivity | reflexivity | reflexivity | discriminate].
Defined.

End FirstSampleWins.

(** * Properties of the hand tracker *)

Section StabilityPredicate.
Import HandTracker TrackingSession.

Lemma np_sum_from (a : R) (l : list R) :
  foldl Rplus a l = (a + np_sum l)%R.
Proof.
  unfold np_sum. revert a.
  induction l as [| x l IH]; intros a; cbn.
  - lra.
  - rewrite (IH (a + x)%R), (IH (0 + x)%R). lra.
Qed.

Lemma np_sum_cons (x : R) (l : list R) : np_sum (x :: l) = (x + np_sum l)%R.
Proof. unfold np_sum at 1. cbn. rewrite np_sum_from. lra. Qed.

Lemma length_pos_IZR {A : Type} (l : list A) :
  l ≠ [] → (0 < IZR (Z.of_nat (length l)))%R.
Proof.
  intros Hl. apply IZR_lt. destruct l; [done | cbn; lia].
Qed.

(** A list of values all above [t] has its sum above [t] times its
    length. *)
Lemma np_sum_above (t : R) (l : list R) :
  Forall (fun d => t < d)%R l →
  (IZR (Z.of_nat (length l)) * t <= np_sum l)%R ∧
  (l ≠ [] → (IZR (Z.of_nat (length l)) * t < np_sum l)%R).
Proof.
  induction 1 as [| d l Hd Hl [IH _]].
  - split; [| done]. change (0 * t <= 0)%R. lra.
  - rewrite np_sum_cons. cbn [length]. rewrite Nat2Z.inj_succ, succ_IZR.
    rewrite Rmult_plus_distr_r. split; [| intros _]; lra.
Qed.

Lemma np_mean_above (t : R) (l : list R) :
  l ≠ [] → Forall (fun d => t < d)%R l → (t < np_mean l)%R.
Proof.
  intros Hne Hall. unfold np_mean.
  pose proof (length_pos_IZR l Hne) as Hn.
  destruct (np_sum_above t l Hall) as [_ Hlt]. specialize (Hlt Hne).
  apply Rmult_lt_reg_r with (IZR (Z.of_nat (length l))); [done |].
  unfold Rdiv. rewrite Rmult_assoc, Rinv_l by lra. lra.
Qed.

Lemma np_mean_zeros (l : list R) :
  Forall (fun d => d = 0%R) l → np_mean l = 0%R.
Proof.
  intros Hall. unfold np_mean.
  assert (Hsum : np_sum l = 0%R).
  { induction Hall as [| d l -> _ IH]; [done |]. rewrite np_sum_cons, IH. lra. }
  rewrite Hsum. unfold Rdiv. ring.
Qed.

(** The code's distance is the Euclidean distance of the two landmarks. *)
Lemma sqrt_squared_difference (p q : landmark) :
  sqrt (IZR ((lm_x q - lm_x p) ^ 2 + (lm_y q - lm_y p) ^ 2))
  = euclidean_distance p q.
Proof.
  unfold euclidean_distance. f_equal.
  rewrite !Z.pow_2_r, plus_IZR, !mult_IZR, !minus_IZR. ring.
Qed.

(** The loop computes the matching displacements, in order. *)
Lemma distances_loop_from (acc : list R) (frame1 frame2 : list landmark) :
  foldl (fun distances '((i1, x1, y1), (i2, x2, y2)) =>
           if decide (i1 = i2)
           then distances ++ [sqrt (IZR ((x2 - x1) ^ 2 + (y2 - y1) ^ 2))]
           else distances)
        acc (zip frame1 frame2)
  = acc ++ matching_displacements frame1 frame2.
Proof.
  unfold matching_displacements.
  revert acc frame2.
  induction frame1 as [| [[i1 x1] y1] frame1 IH]; intros acc [| [[i2 x2] y2] frame2];
    cbn; try by rewrite app_nil_r.
  rewrite IH.
  destruct (decide (i1 = i2)) as [-> | Hne]; [| done].
  cbn. rewrite <- app_assoc. cbn. do 2 f_equal.
  apply (sqrt_squared_difference (i2, x1, y1) (i2, x2, y2)).
Qed.

Lemma distances_loop_spec (frame1 frame2 : list landmark) :
  distances_loop frame1 frame2 = matching_displacements frame1 frame2.
Proof. unfold distances_loop. by rewrite distances_loop_from. Qed.

(** The verdict on a window with at least two frames. *)
Lemma check_first_last (first last : list landmark) (mid : list (list landmark))
    (threshold : R) :
  check_landmark_stability (first :: mid ++ [last]) threshold
  = if decide (length first ≠ length last) then false
    else match matching_displacements first last with
         | [] => false
         | _ :: _ => bool_decide (np_mean (matching_displacements first last)
                                  < threshold)%R
         end.
Proof.
  unfold check_landmark_stability.
  case_decide as Hlen; [cbn in Hlen; rewrite length_app in Hlen; cbn in Hlen; lia |].
  cbn [nth].
  replace (List.last (first :: mid ++ [last]) []) with last.
  - by rewrite distances_loop_spec.
  - change (first :: mid ++ [last]) with ((first :: mid) ++ [last]).
    by rewrite List.last_last.
Qed.

Lemma euclidean_distance_self (p : landmark) : euclidean_distance p p = 0%R.
Proof.
  unfold euclidean_distance.
  replace ((IZR (lm_x p) - IZR (lm_x p)) ^ 2 + (IZR (lm_y p) - IZR (lm_y p)) ^ 2)%R
    with 0%R by ring.
  apply sqrt_0.
Qed.

Lemma matching_displacements_self (f : list landmark) :
  length (matching_displacements f f) = length f ∧
  Forall (fun d => d = 0%R) (matching_displacements f f).
Proof.
  unfold matching_displacements.
  induction f as [| p f [IHlen IHall]]; [by split |].
  cbn [zip zip_with]. rewrite filter_cons_True by done.
  cbn. split; [by rewrite IHlen |].
  constructor; [apply euclidean_distance_self | done].
Qed.

Lemma matching_displacements_above (t : R) (frame1 frame2 : list landmark) :
  (∀ k p q, frame1 !! k = Some p → frame2 !! k = Some q →
            (t < euclidean_distance p q)%R) →
  Forall (fun d => t < d)%R (matching_displacements frame1 frame2).
Proof.
  unfold matching_displacements. revert frame2.
  induction frame1 as [| p frame1 IH]; intros [| q frame2] Hall;
    [by constructor .. |].
  cbn [zip zip_with].
  assert (Htail : Forall (fun d => t < d)%R
                    ((fun pq => euclidean_distance pq.1 pq.2)
                       <$> filter (fun pq => lm_id pq.1 = lm_id pq.2)
                                  (zip frame1 frame2))).
  { apply IH. intros k p' q' Hp Hq. by apply (Hall (S k)). }
  rewrite filter_cons. case_decide; [| done].
  cbn. constructor; [| done]. by apply (Hall 0%nat).
Qed.

(** C7. [check_landmark_stability] answers not-stable for fewer than two
    frames.  For a window of two or more frames whose first and last frame
    have the same length and share at least one landmark index position,
    it answers stable exactly when the mean of the Euclidean displacements
    at the matching positions is strictly below the threshold, and
    not-stable when no position matches.  So a window that starts and ends
    with the same non-empty landmark set is stable for every positive
    threshold, and a window between whose first and last frame every point
    moved by more than the threshold is not stable. *)
Theorem stability_is_mean_displacement_below_threshold (threshold : R) :
  (∀ frames, (length frames < 2)%nat →
     check_landmark_stability frames threshold = false) ∧
  (∀ first mid last,
     length first = length last →
     (matching_displacements first last ≠ [] →
      (check_landmark_stability (first :: mid ++ [last]) threshold = true
       ↔ (np_mean (matching_displacements first last) < threshold)%R)) ∧
     (matching_displacements first last = [] →
      check_landmark_stability (first :: mid ++ [last]) threshold = false)) ∧
  (∀ f mid, f ≠ [] → (0 < threshold)%R →
     check_landmark_stability (f :: mid ++ [f]) threshold = true) ∧
  (∀ first mid last,
     (∀ k p q, first !! k = Some p → last !! k = Some q →
               (threshold < euclidean_distance p q)%R) →
     check_landmark_stability (first :: mid ++ [last]) threshold = false).
Proof.
  split; [| split; [| split]].
  - intros frames Hlen. unfold check_landmark_stability. by case_decide.
  - intros first mid last Hlen. rewrite check_first_last.
    case_decide; [done |]. split.
    + intros Hne. destruct (matching_displacements first last) eqn:Hd; [done |].
      apply bool_decide_eq_true.
    + by intros ->.
  - intros f mid Hf Hpos. rewrite check_first_last.
    case_decide; [done |].
    destruct (matching_displacements_self f) as [Hlen Hzero].
    destruct (matching_displacements f f) eqn:Hd.
    + destruct f; [done | discriminate Hlen].
    + apply bool_decide_eq_true. by rewrite (np_mean_zeros _ Hzero).
  - intros first mid last Hfar. rewrite check_first_last.
    case_decide; [done |].
    pose proof (matching_displacements_above threshold first last Hfar) as Hall.
    destruct (matching_displacements first last) eqn:Hd; [done |].
    apply bool_decide_eq_false.
    assert (threshold < np_mean (r :: l))%R by (by apply np_mean_above). lra.
Qed.

End StabilityPredicate.

Section StabilityCounter.
Import HandTracker TrackingSession.

Lemma update_counter_nonneg (stable : bool) (c : Z) :
  (0 <= c)%Z → (0 <= update_counter stable c)%Z.
Proof. unfold update_counter. destruct stable; lia. Qed.

Lemma step_counter_nonneg (t : Tracker) (ev : event) :
  (0 <= hand_stability_counter t)%Z → (0 <= hand_stability_counter (step t ev))%Z.
Proof.
  intros Hc. destruct ev as [detected | h w hand_index |]; cbn; [done | | done].
  unfold get_landmarks_list.
  destruct (results t ≫= _) as [hd |]; [| done].
  case_decide; [| done]. cbn.
  case_decide; [| done]. by apply update_counter_nonneg.
Qed.

Lemma run_counter_nonneg (evs : list event) (t : Tracker) :
  (0 <= hand_stability_counter t)%Z → (0 <= hand_stability_counter (run evs t))%Z.
Proof.
  unfold run. revert t.
  induction evs as [| ev evs IH]; intros t Hc; [done |].
  cbn. apply IH. by apply step_counter_nonneg.
Qed.

(** A stable evaluation adds one to the counter. *)
Lemma stable_evaluation_increments (h w : Z) (hand_index : nat) (t : Tracker) :
  evaluates true h w hand_index t →
  hand_stability_counter (get_landmarks_list h w hand_index t).1
  = (hand_stability_counter t + 1)%Z.
Proof.
  intros (hd & Hhd & Hlen & Hstable). unfold get_landmarks_list.
  rewrite Hhd. case_decide; [| lia]. cbn.
  case_decide; [| lia]. by rewrite Hstable.
Qed.

Lemma stable_streak_counts (n : nat) (t t' : Tracker) :
  stable_streak n t t' →
  hand_stability_counter t' = (hand_stability_counter t + Z.of_nat n)%Z.
Proof.
  induction 1 as [t | n t t' detected _ IH | n t t' h w hand_index _ IH Hev].
  - lia.
  - by cbn.
  - rewrite (stable_evaluation_increments _ _ _ _ Hev), IH. lia.
Qed.

(** The branch for a counter of 0 returns what the formula gives. *)
Lemma score_formula (t : Tracker) :
  get_hand_stability t
  = (IZR (Z.min (hand_stability_counter t) 10) / 10 * 100)%R.
Proof.
  unfold get_hand_stability.
  case_decide as H0; [| done]. rewrite H0.
  change (Z.min 0 10) with 0%Z. lra.
Qed.

(** C6. The stability counter is never negative: every operation of the
    tracker keeps it at or above zero, whatever sequence of calls is made.
    With a counter [c] the score is [min(c, 10) / 10 * 100], which lies
    between 0 and 100, and after ten or more consecutive stable
    evaluations it is exactly 100. *)
Theorem stability_counter_and_score :
  (∀ evs, (0 <= hand_stability_counter (run evs __init__))%Z) ∧
  (∀ evs t, (0 <= hand_stability_counter t)%Z →
            (0 <= hand_stability_counter (run evs t))%Z) ∧
  (∀ t, get_hand_stability t
        = (IZR (Z.min (hand_stability_counter t) 10) / 10 * 100)%R) ∧
  (∀ t, (0 <= hand_stability_counter t)%Z →
        (0 <= get_hand_stability t <= 100)%R) ∧
  (∀ n t t', (0 <= hand_stability_counter t)%Z →
     stable_streak n t t' → (10 <= n)%nat →
     get_hand_stability t' = 100%R).
Proof.
  split; [| split; [| split; [| split]]].
  - intros evs. by apply run_counter_nonneg.
  - intros evs t. apply run_counter_nonneg.
  - apply score_formula.
  - intros t Hc. rewrite score_formula.
    assert (0 <= Z.min (hand_stability_counter t) 10 <= 10)%Z as [Hlo Hhi] by lia.
    apply IZR_le in Hlo, Hhi. lra.
  - intros n t t' Hc Hstreak Hn.
    pose proof (stable_streak_counts n t t' Hstreak) as Hcount.
    rewrite score_formula, Z.min_r by lia. lra.
Qed.

End StabilityCounter.

Section UniformFrames.
Import HandTracker TrackingSession.

Lemma py_int_between (r : R) (z : Z) :
  (0 <= z)%Z → (IZR z <= r < IZR z + 1)%R → py_int r = z.
Proof.
  intros Hz [Hlo Hhi]. unfold py_int.
  assert (0 <= IZR z)%R by (by apply IZR_le).
  case_decide; [lra |].
  symmetry. apply Int_part_spec. lra.
Qed.

Lemma imap_replicate {A B : Type} (f : nat → A → B) (n : nat) (x : A) :
  imap f (replicate n x) = (fun i => f i x) <$> seq 0 n.
Proof.
  revert f. induction n as [| n IH]; intros f; [done |].
  cbn. f_equal. rewrite IH. by rewrite <- fmap_S_seq, <- list_fmap_compose.
Qed.

Lemma current_landmarks_uniform (h w : Z) (a b : R) (x y : Z) :
  py_int (a * IZR w) = x → py_int (b * IZR h) = y →
  current_landmarks h w (uniform_hand a b)
  = uniform_frame (Z.max 0 (Z.min x (w - 1))) (Z.max 0 (Z.min y (h - 1))).
Proof.
  intros Hx Hy. unfold current_landmarks, uniform_hand, uniform_frame.
  rewrite imap_replicate. cbn [fst snd]. by rewrite Hx, Hy.
Qed.

Lemma smoothing_weights_3 :
  smoothing_weights 3 = [(0.3 / 1.95)%R; (0.65 / 1.95)%R; (1 / 1.95)%R].
Proof.
  unfold smoothing_weights, np_linspace, np_sum. cbn [seq map app foldl].
  change (Z.of_nat 0) with 0%Z. change (Z.of_nat 1) with 1%Z. change (Z.of_nat 2) with 2%Z.
  repeat f_equal; lra.
Qed.

Lemma uniform_frame_length (x y : Z) : length (uniform_frame x y) = 21%nat.
Proof. done. Qed.

Lemma uniform_frame_item (x y : Z) (i : nat) :
  (i < 21)%nat → item (uniform_frame x y) i = (Z.of_nat i, x, y).
Proof.
  intros Hi. unfold item. apply nth_lookup_Some.
  unfold uniform_frame. rewrite list_lookup_fmap, lookup_seq_lt by done. done.
Qed.

Lemma weighted_average_uniform3 (ws : list R) (x1 y1 x2 y2 x3 y3 : Z) (i : nat) :
  (i < 21)%nat →
  weighted_average ws [uniform_frame x1 y1; uniform_frame x2 y2; uniform_frame x3 y3] i
  = ((0 + IZR x1 * nth 0 ws 0 + IZR x2 * nth 1 ws 0 + IZR x3 * nth 2 ws 0)%R,
     (0 + IZR y1 * nth 0 ws 0 + IZR y2 * nth 1 ws 0 + IZR y3 * nth 2 ws 0)%R).
Proof.
  intros Hi. unfold weighted_average. cbn [imap foldl compose].
  rewrite !uniform_frame_length, !bool_decide_eq_true_2 by done.
  by rewrite !uniform_frame_item by done.
Qed.

Lemma smoothed_uniform3 (h w : Z) (x1 y1 x2 y2 x3 y3 X Y : Z) :
  py_int (0 + IZR x1 * nth 0 (smoothing_weights 3) 0
            + IZR x2 * nth 1 (smoothing_weights 3) 0
            + IZR x3 * nth 2 (smoothing_weights 3) 0)%R = X →
  py_int (0 + IZR y1 * nth 0 (smoothing_weights 3) 0
            + IZR y2 * nth 1 (smoothing_weights 3) 0
            + IZR y3 * nth 2 (smoothing_weights 3) 0)%R = Y →
  smoothed_landmarks h w
    [uniform_frame x1 y1; uniform_frame x2 y2; uniform_frame x3 y3]
  = uniform_frame (Z.max 0 (Z.min (w - 1) X)) (Z.max 0 (Z.min (h - 1) Y)).
Proof.
  intros HX HY. unfold smoothed_landmarks.
  change (length [uniform_frame x1 y1; uniform_frame x2 y2; uniform_frame x3 y3])
    with 3%nat.
  transitivity (map (fun i : nat => (Z.of_nat i, Z.max 0 (Z.min (w - 1) X),
                                      Z.max 0 (Z.min (h - 1) Y))) (seq 0 21));
    [| done].
  apply map_ext_in. intros i Hi. apply in_seq in Hi.
  rewrite weighted_average_uniform3 by lia. by rewrite HX, HY.
Qed.

Lemma np_sum_replicate (n : nat) (d : R) :
  np_sum (replicate n d) = (IZR (Z.of_nat n) * d)%R.
Proof.
  induction n as [| n IH].
  - change (0 = 0 * d)%R. lra.
  - cbn [replicate]. rewrite np_sum_cons, IH, Nat2Z.inj_succ, succ_IZR. lra.
Qed.

Lemma np_mean_replicate (n : nat) (d : R) :
  (0 < n)%nat → np_mean (replicate n d) = d.
Proof.
  intros Hn. unfold np_mean. rewrite np_sum_replicate, length_replicate.
  assert (0 < IZR (Z.of_nat n))%R by (apply IZR_lt; lia).
  field. lra.
Qed.

Lemma matching_displacements_uniform (x1 y1 x2 y2 : Z) :
  matching_displacements (uniform_frame x1 y1) (uniform_frame x2 y2)
  = replicate 21 (sqrt ((IZR x1 - IZR x2) ^ 2 + (IZR y1 - IZR y2) ^ 2)).
Proof. reflexivity. Qed.

Lemma check_uniform (x1 y1 x2 y2 : Z) (mid : list (list landmark)) (t : R) :
  check_landmark_stability (uniform_frame x1 y1 :: mid ++ [uniform_frame x2 y2]) t
  = bool_decide (sqrt ((IZR x1 - IZR x2) ^ 2 + (IZR y1 - IZR y2) ^ 2) < t)%R.
Proof.
  rewrite check_first_last. case_decide; [done |].
  rewrite matching_displacements_uniform.
  rewrite np_mean_replicate by lia. done.
Qed.

Lemma horizontal_distance (a b : Z) :
  (a <= b)%Z → sqrt ((IZR a - IZR b) ^ 2 + (IZR 0 - IZR 0) ^ 2) = IZR (b - a).
Proof.
  intros Hab. rewrite minus_IZR.
  replace ((IZR a - IZR b) ^ 2 + (0 - 0) ^ 2)%R
    with ((IZR b - IZR a) * (IZR b - IZR a))%R by ring.
  apply sqrt_square. apply IZR_le in Hab. lra.
Qed.

Lemma get_landmarks_list_detected (h w : Z) (hand_index : nat) (t : Tracker) (hd : hand) :
  results t ≫= (fun hands => hands !! hand_index) = Some hd →
  get_landmarks_list h w hand_index t
  = let current := current_landmarks h w hd in
    let buffer := deque_append smoothing_buffer_size (landmark_buffer t) current in
    if decide (2 <= length buffer)%nat then
      ({| landmark_buffer := buffer;
          position_buffer := position_buffer t;
          results := results t;
          hand_stability_counter :=
            if decide (3 <= length buffer)%nat then
              update_counter
                (check_landmark_stability (drop (length buffer - 3) buffer) 10)
                (hand_stability_counter t)
            else hand_stability_counter t |},
       smoothed_landmarks h w buffer)
    else
      ({| landmark_buffer := buffer;
          position_buffer := position_buffer t;
          results := results t;
          hand_stability_counter := hand_stability_counter t |}, current).
Proof. intros H. unfold get_landmarks_list. by rewrite H. Qed.

Lemma uniform_frame_lookup (x y : Z) (k : nat) (p : landmark) :
  uniform_frame x y !! k = Some p → p = (Z.of_nat k, x, y).
Proof.
  unfold uniform_frame. rewrite list_lookup_fmap.
  destruct (seq 0 21 !! k) as [i |] eqn:Hk; [| done].
  apply lookup_seq in Hk as [-> _]. by intros [= <-].
Qed.

Lemma stability_is_mean_displacement_below_threshold_witness :
  check_landmark_stability [uniform_frame 0 0; uniform_frame 0 0] 10 = true ∧
  check_landmark_stability [uniform_frame 0 0; uniform_frame 16 0] 10 = false.
Proof.
  split.
  - apply (proj1 (proj2 (proj2 (stability_is_mean_displacement_below_threshold 10)))
             (uniform_frame 0 0) []); [discriminate | lra].
  - apply (proj2 (proj2 (proj2 (stability_is_mean_displacement_below_threshold 10)))
             (uniform_frame 0 0) [] (uniform_frame 16 0)).
    intros k p q Hp Hq.
    apply uniform_frame_lookup in Hp as ->. apply uniform_frame_lookup in Hq as ->.
    unfold euclidean_distance. cbn [lm_x lm_y fst snd].
    rewrite horizontal_distance by lia. change (16 - 0)%Z with 16%Z. lra.
Defined.

End UniformFrames.

Section FrameUpdate.
Import HandTracker TrackingSession.

Lemma deque_append_snoc {A : Type} (maxlen : nat) (d : list A) (x : A) :
  ∃ d', deque_append maxlen d x = d' ++ [x].
Proof. unfold deque_append. case_decide; by eexists. Qed.

Lemma last_two {A : Type} (l : list A) :
  (2 <= length l)%nat → ∃ older a b, l = older ++ [a; b].
Proof.
  intros Hlen.
  destruct l as [| b l _] using rev_ind; [cbn in Hlen; lia |].
  destruct l as [| a l _] using rev_ind.
  - cbn in Hlen. lia.
  - exists l, a, b. by rewrite <- app_assoc.
Qed.

Lemma drop_to_last_three {A : Type} (older : list A) (a b c : A) :
  drop (length (older ++ [a; b; c]) - 3) (older ++ [a; b; c]) = [a; b; c].
Proof.
  rewrite length_app. cbn [length].
  replace (length older + 3 - 3)%nat with (length older) by lia.
  apply drop_app_length.
Qed.

(** The landmark buffer never holds anything but pushed frames; a
    smoothed set does not enter it. *)
Lemma step_buffer_pushed (t : Tracker) (ev : event) :
  Forall pushed_frame (landmark_buffer t) →
  Forall pushed_frame (landmark_buffer (step t ev)).
Proof.
  intros Hall. destruct ev as [detected | h w hand_index |]; cbn;
    [done | | constructor].
  unfold get_landmarks_list.
  destruct (results t ≫= _) as [hd |]; [| done].
  assert (Forall pushed_frame
            (deque_append smoothing_buffer_size (landmark_buffer t)
               (current_landmarks h w hd))) as Hbuf.
  { unfold deque_append. case_decide; apply Forall_app; split;
      try (by apply Forall_drop);
      try done; by repeat constructor; exists h, w, hd. }
  by case_decide.
Qed.

Lemma run_buffer_pushed (evs : list event) :
  Forall pushed_frame (landmark_buffer (run evs __init__)).
Proof.
  unfold run.
  assert (Forall pushed_frame (landmark_buffer __init__)) as H0 by constructor.
  revert H0. generalize __init__.
  induction evs as [| ev evs IH]; intros t Ht; [done |].
  cbn. apply IH. by apply step_buffer_pushed.
Qed.

(** C5, as the code has it. On a frame with a detected hand, the clamped
    landmarks of the frame are pushed into the landmark buffer; when the
    buffer then holds at least 3 sets, stability is evaluated over the 3
    most recent buffered sets, which are the clamped landmarks as pushed
    and not the smoothed sets returned to the caller, and the counter is
    incremented if they are stable and decremented, floored at 0,
    otherwise; when the buffer holds fewer than 3 sets the counter is left
    unchanged. *)
Theorem counter_follows_buffered_frames (h w : Z) (hand_index : nat)
    (t : Tracker) (hd : hand) :
  results t ≫= (fun hands => hands !! hand_index) = Some hd →
  let current := current_landmarks h w hd in
  let buffer := deque_append smoothing_buffer_size (landmark_buffer t) current in
  let t' := (get_landmarks_list h w hand_index t).1 in
  landmark_buffer t' = buffer ∧
  ((3 <= length buffer)%nat →
   ∃ older f1 f2,
     buffer = older ++ [f1; f2; current] ∧
     hand_stability_counter t'
     = if check_landmark_stability [f1; f2; current] 10
       then (hand_stability_counter t + 1)%Z
       else Z.max 0 (hand_stability_counter t - 1)) ∧
  ((length buffer < 3)%nat →
   hand_stability_counter t' = hand_stability_counter t).
Proof.
  intros Hhd. cbv zeta.
  rewrite (get_landmarks_list_detected h w hand_index t hd Hhd). cbv zeta.
  set (current := current_landmarks h w hd).
  assert (∃ d', deque_append smoothing_buffer_size (landmark_buffer t) current
                = d' ++ [current]) as [d' Hd'] by apply deque_append_snoc.
  set (buffer := deque_append smoothing_buffer_size (landmark_buffer t) current) in *.
  clearbody buffer current. subst buffer.
  split; [by case_decide |]. split.
  - intros Hlen.
    destruct (last_two d') as (older & f1 & f2 & ->).
    { rewrite length_app in Hlen. cbn in Hlen. lia. }
    exists older, f1, f2. rewrite <- app_assoc in Hlen |- *. cbn [app] in Hlen |- *.
    split; [done |].
    case_decide; [| lia]. cbn [fst hand_stability_counter].
    case_decide; [| lia].
    by rewrite drop_to_last_three.
  - intros Hlen. case_decide; [| done]. cbn [fst hand_stability_counter].
    case_decide; [lia | done].
Qed.

End FrameUpdate.

Section JumpExample.
Import HandTracker TrackingSession.

Lemma rest_frame : current_landmarks 512 512 (uniform_hand 0 0) = uniform_frame 0 0.
Proof.
  apply (current_landmarks_uniform 512 512 0 0 0 0);
    apply py_int_between; (lia || lra).
Qed.

Lemma jump_frame :
  current_landmarks 512 512 (uniform_hand 0.03125 0) = uniform_frame 16 0.
Proof.
  apply (current_landmarks_uniform 512 512 0.03125 0 16 0);
    apply py_int_between; (lia || lra).
Qed.

(** Smoothing two frames at 0 and one at 16 gives 16 / 1.95, truncated
    to 8. *)
Lemma smoothed_jump :
  smoothed_landmarks 512 512
    [uniform_frame 0 0; uniform_frame 0 0; uniform_frame 16 0]
  = uniform_frame 8 0.
Proof.
  apply (smoothed_uniform3 512 512 0 0 0 0 16 0 8 0);
    rewrite smoothing_weights_3; cbn [nth];
    apply py_int_between; (lia || lra).
Qed.

Lemma buffered_jump_not_stable :
  check_landmark_stability
    [uniform_frame 0 0; uniform_frame 0 0; uniform_frame 16 0] 10 = false.
Proof.
  etransitivity; [exact (check_uniform 0 0 16 0 [uniform_frame 0 0] 10) |].
  rewrite horizontal_distance by lia. apply bool_decide_eq_false.
  change (16 - 0)%Z with 16%Z. lra.
Qed.

Lemma smoothed_jump_stable (mid : list landmark) :
  check_landmark_stability [uniform_frame 0 0; mid; uniform_frame 8 0] 10 = true.
Proof.
  etransitivity; [exact (check_uniform 0 0 8 0 [mid] 10) |].
  rewrite horizontal_distance by lia. apply bool_decide_eq_true.
  change (8 - 0)%Z with 8%Z. lra.
Qed.

Lemma track_two_rest_frames :
  track (take 2 jump_frames) __init__
  = ({| landmark_buffer := [uniform_frame 0 0; uniform_frame 0 0];
        position_buffer := [];
        results := Some [uniform_hand 0 0];
        hand_stability_counter := 0 |},
     [uniform_frame 0 0;
      smoothed_landmarks 512 512 [uniform_frame 0 0; uniform_frame 0 0]]).
Proof.
  assert (H1 : get_landmarks_list 512 512 0
                 (process (Some [uniform_hand 0 0]) __init__)
               = ({| landmark_buffer := [uniform_frame 0 0];
                     position_buffer := [];
                     results := Some [uniform_hand 0 0];
                     hand_stability_counter := 0 |}, uniform_frame 0 0)).
  { rewrite (get_landmarks_list_detected _ _ _ _ (uniform_hand 0 0)) by done.
    by rewrite rest_frame. }
  assert (H2 : get_landmarks_list 512 512 0
                 (process (Some [uniform_hand 0 0])
                    {| landmark_buffer := [uniform_frame 0 0];
                       position_buffer := [];
                       results := Some [uniform_hand 0 0];
                       hand_stability_counter := 0 |})
               = ({| landmark_buffer := [uniform_frame 0 0; uniform_frame 0 0];
                     position_buffer := [];
                     results := Some [uniform_hand 0 0];
                     hand_stability_counter := 0 |},
                  smoothed_landmarks 512 512 [uniform_frame 0 0; uniform_frame 0 0])).
  { rewrite (get_landmarks_list_detected _ _ _ _ (uniform_hand 0 0)) by done.
    by rewrite rest_frame. }
  unfold jump_frames. cbn [take track]. by rewrite H1, H2.
Qed.

Lemma track_app (frames1 frames2 : list hand) (t : Tracker) :
  track (frames1 ++ frames2) t
  = let '(t1, outs1) := track frames1 t in
    let '(t2, outs2) := track frames2 t1 in
    (t2, outs1 ++ outs2).
Proof.
  revert t. induction frames1 as [| hd frames1 IH]; intros t; cbn [app track].
  - by destruct (track frames2 t).
  - destruct (get_landmarks_list 512 512 0 (process (Some [hd]) t)) as [t1 out].
    rewrite IH. destruct (track frames1 t1) as [t2 outs].
    by destruct (track frames2 t2).
Qed.

Lemma track_jump_frames :
  track jump_frames __init__
  = ({| landmark_buffer := [uniform_frame 0 0; uniform_frame 0 0; uniform_frame 16 0];
        position_buffer := [];
        results := Some [uniform_hand 0.03125 0];
        hand_stability_counter := 0 |},
     [uniform_frame 0 0;
      smoothed_landmarks 512 512 [uniform_frame 0 0; uniform_frame 0 0];
      uniform_frame 8 0]).
Proof.
  change jump_frames with (take 2 jump_frames ++ [uniform_hand 0.03125 0]).
  rewrite track_app, track_two_rest_frames. cbn [track].
  rewrite (get_landmarks_list_detected _ _ _ _ (uniform_hand 0.03125 0)) by done.
  rewrite jump_frame.
  cbn [process landmark_buffer position_buffer results hand_stability_counter].
  change (deque_append smoothing_buffer_size
            [uniform_frame 0 0; uniform_frame 0 0] (uniform_frame 16 0))
    with [uniform_frame 0 0; uniform_frame 0 0; uniform_frame 16 0].
  cbn [length drop Nat.sub].
  by rewrite smoothed_jump, buffered_jump_not_stable.
Qed.

(** C5 as worded fails on [jump_frames]. With the third frame the buffer
    holds 3 sets and the three smoothed sets returned so far are stable, so
    an update from the smoothed sets would raise the counter from 0 to 1;
    the code evaluates the buffered sets, finds them not stable, and leaves
    the counter at 0. *)
Lemma counter_ignores_smoothed_sets :
  let before := (track (take 2 jump_frames) __init__).1 in
  let after := (track jump_frames __init__).1 in
  let smoothed := (track jump_frames __init__).2 in
  length (landmark_buffer after) = 3%nat ∧
  length smoothed = 3%nat ∧
  check_landmark_stability smoothed 10 = true ∧
  hand_stability_counter before = 0%Z ∧
  hand_stability_counter after = 0%Z ∧
  hand_stability_counter after
  ≠ update_counter (check_landmark_stability smoothed 10)
      (hand_stability_counter before).
Proof.
  cbv zeta. rewrite track_jump_frames, track_two_rest_frames.
  cbn [fst snd landmark_buffer hand_stability_counter length].
  rewrite smoothed_jump_stable. by repeat split.
Qed.

Lemma counter_follows_buffered_frames_witness :
  let t := process (Some [uniform_hand 0.03125 0])
             (track (take 2 jump_frames) __init__).1 in
  let current := current_landmarks 512 512 (uniform_hand 0.03125 0) in
  let buffer := deque_append smoothing_buffer_size (landmark_buffer t) current in
  let t' := (get_landmarks_list 512 512 0 t).1 in
  landmark_buffer t' = buffer ∧
  ((3 <= length buffer)%nat →
   ∃ older f1 f2,
     buffer = older ++ [f1; f2; current] ∧
     hand_stability_counter t'
     = if check_landmark_stability [f1; f2; current] 10
       then (hand_stability_counter t + 1)%Z
       else Z.max 0 (hand_stability_counter t - 1)) ∧
  ((length buffer < 3)%nat →
   hand_stability_counter t' = hand_stability_counter t).
Proof.
  apply (counter_follows_buffered_frames 512 512 0
           (process (Some [uniform_hand 0.03125 0])
              (track (take 2 jump_frames) __init__).1)
           (uniform_hand 0.03125 0)).
  reflexivity.
Defined.

End JumpExample.

Section RestingExample.
Import HandTracker TrackingSession.

Lemma rest_window_stable :
  check_landmark_stability (replicate 3 (uniform_frame 0 0)) 10 = true.
Proof.
  etransitivity; [exact (check_uniform 0 0 0 0 [uniform_frame 0 0] 10) |].
  rewrite horizontal_distance by lia. apply bool_decide_eq_true.
  change (0 - 0)%Z with 0%Z. lra.
Qed.

(** On a full buffer of resting frames one more resting frame is a stable
    evaluation and leaves the buffer as it was. *)
Lemma resting_call (c : Z) :
  evaluates true 512 512 0 (resting 5 c) ∧
  (get_landmarks_list 512 512 0 (resting 5 c)).1 = resting 5 (c + 1).
Proof.
  assert (Hbuf : deque_append smoothing_buffer_size
                   (replicate 5 (uniform_frame 0 0)) (uniform_frame 0 0)
                 = replicate 5 (uniform_frame 0 0)) by done.
  split.
  - exists (uniform_hand 0 0). split; [done |].
    rewrite rest_frame. cbn [resting landmark_buffer]. rewrite Hbuf.
    split; [cbn; lia |]. exact rest_window_stable.
  - rewrite (get_landmarks_list_detected _ _ _ _ (uniform_hand 0 0)) by done.
    rewrite rest_frame. cbn [resting landmark_buffer]. rewrite Hbuf.
    cbn [length replicate Nat.sub drop]. change [_; _; _] with (replicate 3 (uniform_frame 0 0)).
    rewrite rest_window_stable. done.
Qed.

Lemma resting_streak (n : nat) (c : Z) :
  stable_streak n (resting 5 c) (resting 5 (c + Z.of_nat n)).
Proof.
  induction n as [| n IH].
  - replace (c + Z.of_nat 0)%Z with c by lia. constructor.
  - destruct (resting_call (c + Z.of_nat n)) as [Hev Hnext].
    replace (c + Z.of_nat (S n))%Z with (c + Z.of_nat n + 1)%Z by lia.
    rewrite <- Hnext. by constructor.
Qed.

Lemma stability_counter_and_score_witness :
  get_hand_stability (resting 5 10) = 100%R.
Proof.
  apply (proj2 (proj2 (proj2 (proj2 stability_counter_and_score)))
           10%nat (resting 5 0));
    [cbn; lia | exact (resting_streak 10 0) | lia].
Defined.

End RestingExample.

(** * Further properties of the calibrator *)

Section FingerStates.
Import GestureCalibrator CalibrationSession.

(** One pass of the loop of [_get_finger_states] over any table with
    distinct names. *)
Lemma finger_loop_other (lms : list landmark) (data : list (string * nat * nat))
    (acc : gmap string bool) (k : string) :
  k ∉ (fun d => d.1.1) <$> data →
  foldl (fun states '(name, tip_idx, pip_idx) =>
           if bool_decide (tip_idx < length lms)%nat && bool_decide (pip_idx < length lms)%nat
           then <[name := bool_decide (lm_y (item lms tip_idx) < lm_y (item lms pip_idx))%Z]> states
           else states) acc data !! k
  = acc !! k.
Proof.
  revert acc. induction data as [| [[name tip] pip] data IH]; intros acc Hk; [done |].
  cbn in Hk. apply not_elem_of_cons in Hk as [Hne Hk].
  cbn [foldl]. rewrite IH by done.
  destruct (bool_decide (tip < length lms)%nat && bool_decide (pip < length lms)%nat);
    [by rewrite lookup_insert_ne | done].
Qed.

Lemma finger_loop_entry (lms : list landmark) (data : list (string * nat * nat))
    (acc : gmap string bool) (name : string) (tip pip : nat) :
  NoDup ((fun d => d.1.1) <$> data) →
  (name, tip, pip) ∈ data →
  foldl (fun states '(name, tip_idx, pip_idx) =>
           if bool_decide (tip_idx < length lms)%nat && bool_decide (pip_idx < length lms)%nat
           then <[name := bool_decide (lm_y (item lms tip_idx) < lm_y (item lms pip_idx))%Z]> states
           else states) acc data !! name
  = if bool_decide (tip < length lms)%nat && bool_decide (pip < length lms)%nat
    then Some (bool_decide (lm_y (item lms tip) < lm_y (item lms pip))%Z)
    else acc !! name.
Proof.
  revert acc. induction data as [| [[name' tip'] pip'] data IH]; intros acc Hnd Hin.
  - by apply elem_of_nil in Hin.
  - cbn in Hnd. apply NoDup_cons in Hnd as [Hfresh Hnd].
    cbn [foldl]. apply elem_of_cons in Hin as [[= <- <- <-] | Hin].
    + rewrite finger_loop_other by done.
      destruct (bool_decide (tip < length lms)%nat && bool_decide (pip < length lms)%nat);
        [by rewrite lookup_insert_eq | done].
    + assert (name ≠ name') as Hne.
      { intros ->. apply Hfresh.
        apply (list_elem_of_fmap_2 (fun d : string * nat * nat => d.1.1)) in Hin.
        exact Hin. }
      rewrite IH by done.
      destruct (bool_decide (tip < length lms)%nat && bool_decide (pip < length lms)%nat);
        [done |].
      destruct (bool_decide (tip' < length lms)%nat && bool_decide (pip' < length lms)%nat);
        [by rewrite lookup_insert_ne | done].
Qed.

Lemma finger_names_NoDup : NoDup finger_names.
Proof. compute_done. Qed.

(** X1. [_get_finger_states] has an entry for a finger exactly when both
    its tip index and its joint index are within the landmark list, and the
    entry says whether the tip's y is strictly below the joint's y; it has
    no other key.  So 21 landmarks give all five fingers and 4 or fewer
    landmarks give the empty dict. *)
Theorem finger_states_entries (lms : list landmark) :
  (∀ name tip pip, (name, tip, pip) ∈ finger_data →
     _get_finger_states lms !! name
     = if bool_decide (tip < length lms)%nat && bool_decide (pip < length lms)%nat
       then Some (bool_decide (lm_y (item lms tip) < lm_y (item lms pip))%Z)
       else None) ∧
  (∀ k, k ∉ finger_names → _get_finger_states lms !! k = None) ∧
  ((21 <= length lms)%nat →
   ∀ name, name ∈ finger_names → is_Some (_get_finger_states lms !! name)) ∧
  ((length lms <= 4)%nat → _get_finger_states lms = ∅).
Proof.
  assert (Hentry : ∀ name tip pip, (name, tip, pip) ∈ finger_data →
     _get_finger_states lms !! name
     = if bool_decide (tip < length lms)%nat && bool_decide (pip < length lms)%nat
       then Some (bool_decide (lm_y (item lms tip) < lm_y (item lms pip))%Z)
       else None).
  { intros name tip pip Hin. unfold _get_finger_states.
    rewrite (finger_loop_entry lms finger_data ∅ name tip pip finger_names_NoDup Hin).
    by rewrite lookup_empty. }
  assert (Hother : ∀ k, k ∉ finger_names → _get_finger_states lms !! k = None).
  { intros k Hk. unfold _get_finger_states.
    rewrite finger_loop_other by exact Hk. apply lookup_empty. }
  split; [exact Hentry |]. split; [exact Hother |]. split.
  - intros Hlen name Hname.
    apply list_elem_of_fmap in Hname as ([[name' tip] pip] & -> & Hin).
    cbn [fst]. rewrite (Hentry name' tip pip Hin).
    assert (tip < 21 ∧ pip < 21)%nat as [Ht Hp].
    { unfold finger_data in Hin. rewrite !elem_of_cons, elem_of_nil in Hin.
      destruct Hin as [[= -> -> ->] | [[= -> -> ->] | [[= -> -> ->] |
                      [[= -> -> ->] | [[= -> -> ->] | []]]]]]; lia. }
    rewrite !bool_decide_eq_true_2 by lia. by eexists.
  - intros Hlen. apply map_eq. intros k. rewrite lookup_empty.
    destruct (decide (k ∈ finger_names)) as [Hk | Hk]; [| by apply Hother].
    apply list_elem_of_fmap in Hk as ([[name' tip] pip] & -> & Hin).
    cbn [fst]. rewrite (Hentry name' tip pip Hin).
    assert (4 <= tip)%nat as Ht.
    { unfold finger_data in Hin. rewrite !elem_of_cons, elem_of_nil in Hin.
      destruct Hin as [[= -> -> ->] | [[= -> -> ->] | [[= -> -> ->] |
                      [[= -> -> ->] | [[= -> -> ->] | []]]]]]; lia. }
    rewrite (bool_decide_eq_false_2 (tip < length lms)%nat) by lia. done.
Qed.

End FingerStates.

Section AnyUse.
Import GestureCalibrator CalibrationSession CalibratorUse.

Lemma init_well_formed : well_formed __init__.
Proof.
  split; cbn; try done; try lia; intros name s; by rewrite lookup_empty.
Qed.

Lemma start_well_formed (w h : Z) (c : Calibrator) :
  well_formed c → well_formed (start_calibration w h c).1.
Proof.
  intros [Hstep Hslots Hsnap Hflags Hder].
  split; cbn; try done; try lia; intros name s; by rewrite lookup_empty.
Qed.

Lemma reset_well_formed (c : Calibrator) : well_formed (reset c).
Proof.
  split; cbn; try done; try lia; intros name s; by rewrite lookup_empty.
Qed.

Lemma process_well_formed (lms : list landmark) (now : R) (c c' : Calibrator)
    (p : option Progress) :
  well_formed c →
  process_calibration_step lms now c = Returns (c', p) →
  well_formed c'.
Proof.
  intros Hwf Hp.
  destruct (process_keeps_position _ _ _ _ _ Hp) as [Hk Hcal].
  destruct (process_keeps_derived _ _ _ _ _ Hp) as [Hth Hbase].
  pose proof (process_slots_within _ _ _ _ _ (wf_slots c Hwf) Hp) as Hslots.
  destruct Hwf as [Hstep _ Hsnap Hflags Hder].
  split; [by rewrite Hk | done | | | by rewrite Hth, Hbase].
  - revert Hp. unfold process_calibration_step.
    destruct (bool_decide (lms = [])) eqn:Hlms; cbn [orb].
    { intros [= <- _]. exact Hsnap. }
    apply bool_decide_eq_false in Hlms.
    destruct (negb (is_calibrating c)); [intros [= <- _]; exact Hsnap |].
    destruct (calibration_steps !! current_step c) as [step_name |]; [| done].
    intros [= <- _] name s. cbn.
    destruct (calibration_data c !! step_name) eqn:Hslot; [apply Hsnap |].
    destruct (decide (step_name = name)) as [<- | Hne].
    + rewrite lookup_insert_eq. intros [= <-]. by split.
    + rewrite lookup_insert_ne by done. apply Hsnap.
  - revert Hp. unfold process_calibration_step.
    destruct (bool_decide (lms = []) || negb (is_calibrating c)).
    { intros [= <- _]. exact Hflags. }
    destruct (calibration_steps !! current_step c); [| done].
    intros [= <- _]. exact Hflags.
Qed.

Lemma next_well_formed (c : Calibrator) :
  well_formed c → well_formed (next_step c).1.
Proof.
  intros [Hstep Hslots Hsnap Hflags Hder].
  destruct (decide (current_step c < 4)%nat) as [Hlt | Hge].
  - destruct (advance_before_last c Hlt) as (info & -> & _). cbn.
    split; cbn; try done; [lia |].
    intros name s Hs. destruct (Hslots name s Hs) as (i & Hi & Hn).
    exists i. cbn. split; [lia | done].
  - assert (Hlast : current_step c = 4%nat) by lia.
    destruct (advance_on_last c Hlast) as (r & Hnext & _ & _ & _ & Hs & Hcal & Hcomp).
    rewrite Hnext in *. cbn [fst] in *.
    unfold _calculate_thresholds in *. cbn [finishing calibration_data] in *.
    destruct (calibration_data c !! "open_hand") as [oh |]; cbn in *;
      split; cbn; try done; lia.
Qed.

Lemma apply_op_well_formed (c : Calibrator) (o : op) :
  well_formed c → ∃ c', apply_op c o = Returns c' ∧ well_formed c'.
Proof.
  intros Hwf. destruct o as [w h | lms now | |]; cbn [apply_op].
  - eexists. split; [done |]. exact (start_well_formed w h c Hwf).
  - destruct (process_returns lms now c (wf_step c Hwf)) as (c' & p & Hp).
    rewrite Hp. exists c'. split; [done |]. by eapply process_well_formed.
  - eexists. split; [done |]. exact (next_well_formed c Hwf).
  - eexists. split; [done |]. apply reset_well_formed.
Qed.

Lemma run_ops_well_formed (ops : list op) (c : Calibrator) :
  well_formed c → ∃ c', run_ops ops c = Returns c' ∧ well_formed c'.
Proof.
  revert c. induction ops as [| o ops IH]; intros c Hwf; [by exists c |].
  destruct (apply_op_well_formed c o Hwf) as (c1 & Ho & Hwf1).
  cbn. rewrite Ho. by apply IH.
Qed.


(** X3. After any sequence of calls, every stored snapshot sits under the
    name of a step the current session has reached, was taken from a
    non-empty landmark list, and its hand size and finger states are the
    ones the code computes from the landmarks stored with it. *)
Theorem snapshots_stay_coherent (ops : list op) (c : Calibrator) (name : string)
    (s : Snapshot) :
  run_ops ops __init__ = Returns c →
  calibration_data c !! name = Some s →
  (∃ i, (i <= current_step c)%nat ∧ calibration_steps !! i = Some name) ∧
  landmarks s ≠ [] ∧
  hand_size s = _calculate_hand_size (landmarks s) ∧
  finger_states s = _get_finger_states (landmarks s).
Proof.
  intros Hrun Hs.
  destruct (run_ops_well_formed ops __init__ init_well_formed) as (c' & Hrun' & Hwf).
  rewrite Hrun in Hrun'. injection Hrun' as <-.
  split; [by apply (wf_slots c Hwf name s) |].
  by apply (wf_snapshots c Hwf name s).
Qed.

Lemma snapshots_stay_coherent_witness :
  (∃ i, (i <= current_step open_hand_shown)%nat ∧
        calibration_steps !! i = Some "open_hand") ∧
  landmarks (snapshot_of open_hand_frame 1) ≠ [] ∧
  hand_size (snapshot_of open_hand_frame 1)
  = _calculate_hand_size (landmarks (snapshot_of open_hand_frame 1)) ∧
  finger_states (snapshot_of open_hand_frame 1)
  = _get_finger_states (landmarks (snapshot_of open_hand_frame 1)).
Proof.
  apply (snapshots_stay_coherent [OpStart 640 480; OpProcess open_hand_frame 1]
           open_hand_shown "open_hand" (snapshot_of open_hand_frame 1));
    vm_compute; reflexivity.
Defined.

(** X4. After any sequence of calls the two flags are never both set, and
    the threshold set and the base hand size are either both present or
    both absent. *)
Theorem flags_and_derived_values_agree (ops : list op) (c : Calibrator) :
  run_ops ops __init__ = Returns c →
  ¬ (is_calibrating c = true ∧ calibration_complete c = true) ∧
  (get_gesture_thresholds c = None ↔ base_hand_size c = None).
Proof.
  intros Hrun.
  destruct (run_ops_well_formed ops __init__ init_well_formed) as (c' & Hrun' & Hwf).
  rewrite Hrun in Hrun'. injection Hrun' as <-.
  split; [| apply Hwf].
  intros [Hcal Hcomp]. rewrite (wf_flags c Hwf Hcal) in Hcomp. done.
Qed.

Lemma flags_and_derived_values_agree_witness :
  ¬ (is_calibrating open_hand_shown = true ∧
     calibration_complete open_hand_shown = true) ∧
  (get_gesture_thresholds open_hand_shown = None
   ↔ base_hand_size open_hand_shown = None).
Proof.
  apply (flags_and_derived_values_agree
           [OpStart 640 480; OpProcess open_hand_frame 1] open_hand_shown).
  vm_compute; reflexivity.
Defined.

End AnyUse.

Section SessionResults.
Import GestureCalibrator CalibrationSession CalibratorUse.

(** Processing a frame never replaces or removes a snapshot. *)
Lemma process_keeps_snapshots (lms : list landmark) (now : R) (c c' : Calibrator)
    (p : option Progress) (name : string) (s : Snapshot) :
  process_calibration_step lms now c = Returns (c', p) →
  calibration_data c !! name = Some s →
  calibration_data c' !! name = Some s.
Proof.
  unfold process_calibration_step.
  destruct (bool_decide (lms = []) || negb (is_calibrating c)).
  { by intros [= <- _]. }
  destruct (calibration_steps !! current_step c) as [step_name |]; [| done].
  intros [= <- _] Hs. cbn.
  destruct (calibration_data c !! step_name) eqn:Hslot; [done |].
  rewrite lookup_insert_ne; [done |]. intros ->. congruence.
Qed.

Lemma next_keeps_snapshots (c : Calibrator) :
  calibration_data (next_step c).1 = calibration_data c.
Proof.
  unfold next_step. case_decide; [done |].
  unfold _calculate_thresholds. cbn.
  by destruct (calibration_data c !! "open_hand").
Qed.

(** X5. Within a session, that is as long as neither [start_calibration]
    nor [reset] is called, a stored snapshot is never overwritten or
    removed: whatever frames are processed and however often [next_step]
    is called afterwards, the snapshot stays as stored. *)
Theorem snapshots_persist_within_session (evs : list event) (c c' : Calibrator)
    (rs : list NextResult) (name : string) (s : Snapshot) :
  calibration_data c !! name = Some s →
  run evs c = Returns (c', rs) →
  calibration_data c' !! name = Some s.
Proof.
  revert c rs. induction evs as [| [lms now |] evs IH]; intros c rs Hs; cbn.
  - by intros [= <- _].
  - destruct (process_calibration_step lms now c) as [[c1 p] |] eqn:Hp; [| done].
    intros Hrun. apply (IH c1 rs); [| done].
    by eapply process_keeps_snapshots.
  - destruct (next_step c) as [c1 r] eqn:Hnext.
    destruct (run evs c1) as [[c2 rs'] |] eqn:Hrun; [| done].
    intros [= <- _]. apply (IH c1 rs'); [| done].
    replace c1 with (next_step c).1 by (by rewrite Hnext).
    by rewrite next_keeps_snapshots.
Qed.

Lemma snapshots_persist_within_session_witness :
  calibration_data session_with_three_snapshots !! "open_hand"
  = Some (snapshot_of open_hand_frame 1).
Proof.
  apply (snapshots_persist_within_session
           [Next; Process fist_frame 2; Next; Process pinch_frame 3; Next; Next]
           open_hand_shown session_with_three_snapshots
           (run_results [Next; Process fist_frame 2; Next; Process pinch_frame 3;
                         Next; Next] open_hand_shown));
    vm_compute; reflexivity.
Defined.

End SessionResults.

Section CompletedSession.
Import GestureCalibrator CalibrationSession CalibratorUse.

Lemma frames_only_keep_derived (evs : list event) (c c' : Calibrator)
    (rs : list NextResult) :
  advances evs = 0%nat →
  run evs c = Returns (c', rs) →
  calibration_thresholds c' = calibration_thresholds c ∧
  base_hand_size c' = base_hand_size c.
Proof.
  revert c. induction evs as [| [lms now |] evs IH]; intros c Hn; cbn in *.
  - by intros [= <- _].
  - destruct (process_calibration_step lms now c) as [[c1 p] |] eqn:Hp; [| done].
    intros Hrun. destruct (IH c1 Hn Hrun) as [-> ->].
    by eapply process_keeps_derived.
  - lia.
Qed.

Lemma completion_sets_base (evs : list event) :
  ∀ (c c' : Calibrator) (rs : list NextResult) (oh : Snapshot),
    calibration_data c !! "open_hand" = Some oh →
    (current_step c <= 4)%nat →
    (advances evs + current_step c = 5)%nat →
    run evs c = Returns (c', rs) →
    base_hand_size c' = Some (hand_size oh) ∧
    is_Some (calibration_thresholds c').
Proof.
  induction evs as [| [lms now |] evs IH]; intros c c' rs oh Hoh Hk Hn; cbn in *.
  - lia.
  - destruct (process_calibration_step lms now c) as [[c1 p] |] eqn:Hp; [| done].
    intros Hrun. destruct (process_keeps_position _ _ _ _ _ Hp) as [Hstep _].
    apply (IH c1 c' rs oh); [by eapply process_keeps_snapshots | lia | lia | done].
  - destruct (decide (current_step c < 4)%nat) as [Hlt | Hge].
    + destruct (advance_before_last c Hlt) as (info & -> & _).
      destruct (run evs _) as [[c2 rs'] |] eqn:Hrun; [| done].
      intros [= <- _].
      eapply (IH _ c2 rs' oh); [| | | exact Hrun]; cbn; [done | lia | lia].
    + assert (Hlast : current_step c = 4%nat) by lia.
      destruct (final_step_with_open_hand c oh Hlast Hoh)
        as (c1 & r & th & Hnext & _ & _ & _ & _ & Hget & Hbase & _).
      rewrite Hnext.
      destruct (run evs c1) as [[c2 rs'] |] eqn:Hrun; [| done].
      intros [= <- _].
      destruct (frames_only_keep_derived evs c1 c2 rs') as [-> ->]; [lia | done |].
      unfold get_gesture_thresholds in Hget. rewrite Hget. split; [| by eexists].
      revert Hnext. unfold next_step. case_decide as Hd; [cbn in Hd; lia |].
      unfold _calculate_thresholds. cbn [calibration_data]. rewrite Hoh.
      by intros [= <- _].
Qed.

(** X6. In a session started by [start_calibration], if the first frame
    processed is non-empty, then once five [next_step] calls have been
    made, with any frames processed in between, the base hand size is the
    hand size of that first frame and a threshold set is present. *)
Theorem base_hand_size_is_that_of_first_frame (c0 : Calibrator) (w h : Z)
    (lms : list landmark) (now : R) (evs : list event) (fin : Calibrator)
    (rs : list NextResult) :
  lms ≠ [] →
  advances evs = 5%nat →
  run (Process lms now :: evs) (start_calibration w h c0).1 = Returns (fin, rs) →
  get_base_hand_size fin = _calculate_hand_size lms ∧
  is_Some (get_gesture_thresholds fin).
Proof.
  intros Hlms Hn. cbn [run].
  destruct (process_calibration_step lms now (start_calibration w h c0).1)
    as [[c1 p] |] eqn:Hp; [| done].
  intros Hrun.
  destruct (process_keeps_position _ _ _ _ _ Hp) as [Hstep _].
  assert (Hoh : calibration_data c1 !! "open_hand"
                = Some {| hand_size := _calculate_hand_size lms;
                          landmarks := lms;
                          finger_states := _get_finger_states lms;
                          timestamp := now |}).
  { revert Hp. unfold process_calibration_step.
    rewrite bool_decide_eq_false_2 by done.
    cbn [orb start_calibration fst is_calibrating negb current_step calibration_data].
    change (calibration_steps !! 0%nat) with (Some "open_hand"). cbv beta iota.
    rewrite lookup_empty.
    intros [= <- _]. cbn [calibration_data]. by rewrite lookup_insert_eq. }
  destruct (completion_sets_base evs c1 fin rs _ Hoh) as [Hbase Hth];
    [rewrite Hstep; cbn; lia | rewrite Hstep; cbn; lia | done |].
  unfold get_base_hand_size, get_gesture_thresholds. by rewrite Hbase.
Qed.

Lemma base_hand_size_is_that_of_first_frame_witness :
  get_base_hand_size
    (run_state [Process open_hand_frame 1; Next; Process fist_frame 2; Next;
                Next; Next; Next] (start_calibration 640 480 __init__).1)
  = _calculate_hand_size open_hand_frame ∧
  is_Some (get_gesture_thresholds
    (run_state [Process open_hand_frame 1; Next; Process fist_frame 2; Next;
                Next; Next; Next] (start_calibration 640 480 __init__).1)).
Proof.
  apply (base_hand_size_is_that_of_first_frame __init__ 640 480 open_hand_frame 1
           [Next; Process fist_frame 2; Next; Next; Next; Next] _
           (run_results [Process open_hand_frame 1; Next; Process fist_frame 2;
                         Next; Next; Next; Next]
                        (start_calibration 640 480 __init__).1));
    [discriminate | reflexivity | vm_compute; reflexivity].
Defined.

(** X7. The derived threshold set holds nothing but the thresholds the
    code assigns: an entry is either the pinch threshold of a [pinch]
    snapshot with at least 9 landmarks, or [hand_size * 0.12] for a finger
    present in the finger states of both the [open_hand] and a [fist]
    snapshot.  Without a [fist] snapshot no finger gets a threshold. *)
Theorem thresholds_hold_nothing_else (c c' : Calibrator) (oh : Snapshot)
    (r : Completion) (th : gmap string R) (k : string) (v : R) :
  current_step c = 4%nat →
  calibration_data c !! "open_hand" = Some oh →
  next_step c = (c', Completed r) →
  thresholds r = Some th →
  th !! k = Some v →
  (k = "pinch" ∧
   ∃ pi, calibration_data c !! "pinch" = Some pi ∧
         (9 <= length (landmarks pi))%nat ∧
         v = (euclidean_distance (item (landmarks pi) 4) (item (landmarks pi) 8)
              * 1.5)%R) ∨
  (∃ fi, calibration_data c !! "fist" = Some fi ∧
         is_Some (finger_states oh !! k) ∧ is_Some (finger_states fi !! k) ∧
         v = (hand_size oh * 0.12)%R).
Proof.
  intros Hk Hoh. unfold next_step.
  case_decide as Hd; [cbn in Hd; lia |].
  unfold _calculate_thresholds. cbn [calibration_data finishing]. rewrite Hoh.
  intros [= <- <-]. cbn [thresholds calibration_thresholds]. intros [= <-].
  assert (Hfingers : ∀ m : gmap string R,
            m = match calibration_data c !! "fist" with
                | Some fi => finger_thresholds (hand_size oh) (finger_states oh)
                               (finger_states fi) ∅
                | None => ∅
                end →
            m !! k = Some v →
            ∃ fi, calibration_data c !! "fist" = Some fi ∧
                  is_Some (finger_states oh !! k) ∧ is_Some (finger_states fi !! k) ∧
                  v = (hand_size oh * 0.12)%R).
  { intros m -> Hm. destruct (calibration_data c !! "fist") as [fi |]; [| done].
    rewrite finger_thresholds_lookup, lookup_empty in Hm.
    case_decide as Hboth; [| done]. injection Hm as <-.
    exists fi. by destruct Hboth. }
  destruct (calibration_data c !! "pinch") as [pi |] eqn:Hpi.
  - case_decide as Hlen.
    + destruct (decide (k = "pinch")) as [-> | Hne].
      * rewrite lookup_insert_eq. intros [= <-]. left. split; [done |].
        exists pi. by rewrite sqrt_squares_distance.
      * rewrite lookup_insert_ne by done. intros Hm. right. by eapply Hfingers.
    + intros Hm. right. by eapply Hfingers.
  - intros Hm. right. by eapply Hfingers.
Qed.

Lemma thresholds_hold_nothing_else_witness :
  ("pinch" = "pinch" ∧
   ∃ pi, calibration_data session_with_three_snapshots !! "pinch" = Some pi ∧
         (9 <= length (landmarks pi))%nat ∧
         (euclidean_distance (item pinch_frame 4) (item pinch_frame 8) * 1.5)%R
         = (euclidean_distance (item (landmarks pi) 4) (item (landmarks pi) 8)
            * 1.5)%R) ∨
  (∃ fi, calibration_data session_with_three_snapshots !! "fist" = Some fi ∧
         is_Some (finger_states (snapshot_of open_hand_frame 1) !! "pinch") ∧
         is_Some (finger_states fi !! "pinch") ∧
         (euclidean_distance (item pinch_frame 4) (item pinch_frame 8) * 1.5)%R
         = (hand_size (snapshot_of open_hand_frame 1) * 0.12)%R).
Proof.
  destruct (final_step_with_open_hand session_with_three_snapshots
              (snapshot_of open_hand_frame 1))
    as (c' & r & th & Hnext & _ & _ & Hth & _ & _ & _ & _ & Hpinch);
    [vm_compute; reflexivity | vm_compute; reflexivity |].
  apply (thresholds_hold_nothing_else session_with_three_snapshots c'
           (snapshot_of open_hand_frame 1) r th "pinch");
    [vm_compute; reflexivity | vm_compute; reflexivity | exact Hnext | exact Hth |].
  apply (Hpinch (snapshot_of pinch_frame 3));
    [vm_compute; reflexivity | cbn; lia].
Defined.

(** X8. At the last step [next_step] is idempotent: calling it again
    leaves the calibrator as the first call left it and returns the same
    completion, so the step index never passes the last step. *)
Theorem repeated_completion_changes_nothing (c : Calibrator) :
  current_step c = 4%nat →
  next_step (next_step c).1 = next_step c ∧
  current_step (next_step c).1 = 4%nat.
Proof.
  intros Hk. unfold next_step at 2 3 4.
  case_decide as Hd; [cbn in Hd; lia |].
  unfold _calculate_thresholds. cbn [finishing calibration_data].
  destruct (calibration_data c !! "open_hand") as [oh |] eqn:Hoh;
    cbn [fst]; (split; [| done]);
    unfold next_step; cbn [current_step]; rewrite Hk;
    (case_decide as Hd'; [cbn in Hd'; lia |]);
    unfold _calculate_thresholds; cbn; by rewrite Hoh.
Qed.

Lemma repeated_completion_changes_nothing_witness :
  next_step (next_step session_with_three_snapshots).1
  = next_step session_with_three_snapshots ∧
  current_step (next_step session_with_three_snapshots).1 = 4%nat.
Proof.
  apply (repeated_completion_changes_nothing session_with_three_snapshots).
  vm_compute; reflexivity.
Defined.

End CompletedSession.

Section FramesAndReports.
Import GestureCalibrator CalibrationSession CalibratorUse.

(** X9. While a session is calibrating, every non-empty frame is answered
    with a report on that frame: the step number, the total of 5, the
    gesture of the current step, the hand size of the frame just passed
    and a progress fraction in (0, 1].  This holds also when the step
    already has its snapshot, which then stays as it is: the reported hand
    size is the live one, not the stored one. *)
Theorem report_is_live_while_snapshot_is_kept (c : Calibrator) (step_name : string)
    (stored : Snapshot) (lms : list landmark) (now : R) :
  is_calibrating c = true →
  calibration_steps !! current_step c = Some step_name →
  calibration_data c !! step_name = Some stored →
  lms ≠ [] →
  ∃ p,
    process_calibration_step lms now c = Returns (c, Some p) ∧
    p_step p = (current_step c + 1)%nat ∧
    p_total_steps p = 5%nat ∧
    p_gesture p = step_name ∧
    p_hand_size p = _calculate_hand_size lms ∧
    progress p = (INR (current_step c + 1) / 5)%R ∧
    (0 < progress p <= 1)%R.
Proof.
  intros Hcal Hname Hs Hlms. unfold process_calibration_step.
  rewrite bool_decide_eq_false_2 by done. rewrite Hcal, Hname, Hs. cbn [orb negb].
  eexists. split.
  { rewrite <- Hcal at 1. destruct c; reflexivity. }
  cbn [p_step p_total_steps p_gesture p_hand_size progress].
  repeat (split; [done |]).
  assert (current_step c < 5)%nat as Hk.
  { apply lookup_lt_Some in Hname. exact Hname. }
  replace (INR (length calibration_steps)) with 5%R by (cbn; lra).
  split; [done |].
  pose proof (pos_INR (current_step c)) as H0.
  assert (INR (current_step c + 1) <= INR 5)%R as H5 by (apply le_INR; lia).
  rewrite plus_INR in *. cbn [INR] in *. lra.
Qed.

Lemma report_is_live_while_snapshot_is_kept_witness :
  ∃ p,
    process_calibration_step fist_frame 2 open_hand_shown
    = Returns (open_hand_shown, Some p) ∧
    p_step p = (current_step open_hand_shown + 1)%nat ∧
    p_total_steps p = 5%nat ∧
    p_gesture p = "open_hand" ∧
    p_hand_size p = _calculate_hand_size fist_frame ∧
    progress p = (INR (current_step open_hand_shown + 1) / 5)%R ∧
    (0 < progress p <= 1)%R.
Proof.
  apply (report_is_live_while_snapshot_is_kept open_hand_shown "open_hand"
           (snapshot_of open_hand_frame 1) fist_frame 2);
    [vm_compute; reflexivity | vm_compute; reflexivity
     | vm_compute; reflexivity | discriminate].
Defined.

(** X10. Outside a running session frames are ignored: on a new
    calibrator, after [reset], and after the final [next_step] (until
    [start_calibration] is called again), [process_calibration_step]
    returns [None] and changes nothing, whatever the landmarks. *)
Theorem frames_are_ignored_outside_a_session (lms : list landmark) (now : R) :
  process_calibration_step lms now __init__ = Returns (__init__, None) ∧
  (∀ c, process_calibration_step lms now (reset c) = Returns (reset c, None)) ∧
  (∀ c, current_step c = 4%nat →
        process_calibration_step lms now (next_step c).1
        = Returns ((next_step c).1, None)) ∧
  (∀ c, is_calibrating c = false →
        ∀ frames, feed frames c = Returns (c, [])).
Proof.
  assert (Hidle : ∀ c, is_calibrating c = false →
            process_calibration_step lms now c = Returns (c, None)).
  { intros c Hc. unfold process_calibration_step. rewrite Hc.
    by rewrite orb_true_r. }
  split; [by apply Hidle |]. split; [intros c; by apply Hidle |]. split.
  - intros c Hk. apply Hidle.
    by destruct (advance_on_last c Hk) as (r & _ & _ & _ & _ & _ & Hcal & _).
  - intros c Hc frames. unfold feed.
    induction frames as [| [l t] frames IH]; [done |].
    cbn. unfold process_calibration_step. rewrite Hc, orb_true_r. exact IH.
Qed.

End FramesAndReports.

(** * Further properties of the tracker *)

Section BoundedBuffers.
Import HandTracker TrackingSession HandTrackerQueries.

Lemma deque_append_length {A : Type} (maxlen : nat) (d : list A) (x : A) :
  (0 < maxlen)%nat → (length d <= maxlen)%nat →
  (length (deque_append maxlen d x) <= maxlen)%nat.
Proof.
  intros Hpos Hlen. unfold deque_append.
  case_decide; rewrite length_app; [cbn; lia |].
  rewrite length_drop. cbn. lia.
Qed.

(** A [deque(maxlen=n)] filled by appends holds the last [n] items
    appended, in the order of their arrival. *)
Lemma deque_foldl_drop {A : Type} (maxlen : nat) (xs : list A) :
  (0 < maxlen)%nat →
  foldl (deque_append maxlen) [] xs = drop (length xs - maxlen) xs.
Proof.
  intros Hpos.
  induction xs as [| x xs IH] using rev_ind; [done |].
  rewrite foldl_snoc, IH, length_app. cbn [length]. unfold deque_append.
  rewrite length_drop.
  case_decide as Hfull.
  - replace (length xs - maxlen)%nat with 0%nat by lia.
    replace (length xs + 1 - maxlen)%nat with 0%nat by lia. done.
  - rewrite drop_drop.
    replace (length xs - maxlen + 1)%nat with (length xs + 1 - maxlen)%nat by lia.
    rewrite drop_app_le by lia. done.
Qed.

(** What [get_hand_center] and [get_index_tip] do to the tracker beyond
    what their call of [get_landmarks_list] does. *)
Lemma hand_center_state (h w : Z) (hand_index : nat) (t : Tracker) :
  (get_hand_center h w hand_index t).1 = (get_landmarks_list h w hand_index t).1.
Proof.
  unfold get_hand_center.
  destruct (get_landmarks_list h w hand_index t) as [t1 lms]. cbn [fst].
  destruct (bool_decide (lms = []) || bool_decide (length lms < 9)%nat); [done |].
  by destruct (lms !! 0%nat), (lms !! 9%nat).
Qed.

Lemma index_tip_state (h w : Z) (hand_index : nat) (t : Tracker) :
  let t1 := (get_landmarks_list h w hand_index t).1 in
  let t2 := (get_index_tip h w hand_index t).1 in
  landmark_buffer t2 = landmark_buffer t1 ∧
  hand_stability_counter t2 = hand_stability_counter t1 ∧
  results t2 = results t1 ∧
  (position_buffer t2 = position_buffer t1 ∨
   ∃ pos, position_buffer t2
          = deque_append smoothing_buffer_size (position_buffer t1) pos).
Proof.
  cbv zeta. unfold get_index_tip.
  destruct (get_landmarks_list h w hand_index t) as [t1 lms]. cbn [fst].
  destruct (bool_decide (lms = []) || bool_decide (length lms < 9)%nat);
    [by repeat split; try left |].
  destruct (List.find _ lms) as [tip |]; [| by repeat split; try left].
  case_decide.
  - destruct (weighted_position _ _) as [ax ay]. cbn.
    repeat split; try done. right. by eexists.
  - cbn. repeat split; try done. right. by eexists.
Qed.

Lemma landmarks_list_buffers (h w : Z) (hand_index : nat) (t : Tracker) :
  position_buffer (get_landmarks_list h w hand_index t).1 = position_buffer t ∧
  (landmark_buffer (get_landmarks_list h w hand_index t).1 = landmark_buffer t ∨
   ∃ f, landmark_buffer (get_landmarks_list h w hand_index t).1
        = deque_append smoothing_buffer_size (landmark_buffer t) f).
Proof.
  unfold get_landmarks_list.
  destruct (results t ≫= _) as [hd |]; [| by split; [| left]].
  case_decide; cbn; (split; [done |]); right; by eexists.
Qed.

(** X12. Whatever sequence of [process], [get_landmarks_list],
    [get_index_tip], [get_hand_center] and [reset_buffers] calls is made on
    a new tracker, neither the landmark buffer nor the position buffer ever
    holds more than 5 entries. *)
Theorem buffers_never_exceed_five (cs : list call) :
  (length (landmark_buffer (run_calls cs __init__)) <= 5)%nat ∧
  (length (position_buffer (run_calls cs __init__)) <= 5)%nat.
Proof.
  unfold run_calls.
  assert (H0 : (length (landmark_buffer __init__) <= 5)%nat ∧
               (length (position_buffer __init__) <= 5)%nat) by (cbn; lia).
  revert H0. generalize __init__.
  induction cs as [| c cs IH]; intros t Ht; [done |].
  cbn [foldl]. apply IH. clear IH. destruct Ht as [Hl Hp].
  assert (Hll : ∀ h w i,
            (length (landmark_buffer (get_landmarks_list h w i t).1) <= 5)%nat ∧
            (length (position_buffer (get_landmarks_list h w i t).1) <= 5)%nat).
  { intros h w i. destruct (landmarks_list_buffers h w i t) as [-> [-> | [f ->]]];
      (split; [| done]); [done |].
    apply deque_append_length; [unfold smoothing_buffer_size; lia | done]. }
  destruct c as [detected | h w i | h w i | h w i |]; cbn [exec].
  - done.
  - apply Hll.
  - destruct (index_tip_state h w i t) as (-> & _ & _ & [-> | [pos ->]]);
      destruct (Hll h w i) as [Hl' Hp']; (split; [done |]); [done |].
    apply deque_append_length; [unfold smoothing_buffer_size; lia | done].
  - rewrite hand_center_state. apply Hll.
  - cbn. lia.
Qed.

Lemma feed_frames_buffer (h w : Z) (frames : list hand) (t : Tracker) :
  landmark_buffer (run_calls (frame_calls h w frames) t)
  = foldl (deque_append smoothing_buffer_size) (landmark_buffer t)
      (current_landmarks h w <$> frames).
Proof.
  unfold run_calls, frame_calls. revert t.
  induction frames as [| hd frames IH]; intros t; [done |].
  cbn [mbind list_bind app foldl exec fmap list_fmap]. rewrite IH. f_equal.
  rewrite (get_landmarks_list_detected h w 0 (process (Some [hd]) t) hd) by done.
  cbv zeta. by case_decide.
Qed.

(** X11. When a new tracker is fed one frame after the other, each with a
    detected hand, the landmark buffer holds the clamped landmarks of the
    last 5 frames, oldest first (of all frames while there are fewer than
    5). *)
Theorem landmark_buffer_holds_the_last_five_frames (h w : Z) (frames : list hand) :
  landmark_buffer (run_calls (frame_calls h w frames) __init__)
  = drop (length frames - 5) (current_landmarks h w <$> frames).
Proof.
  rewrite feed_frames_buffer. cbn [landmark_buffer __init__].
  rewrite deque_foldl_drop by (unfold smoothing_buffer_size; lia).
  by rewrite length_fmap.
Qed.

(** X23. Every query pushes the frame again: after [get_landmarks_list],
    a call of [get_hand_center] or [get_index_tip] on the same frame
    appends the same clamped landmarks to the landmark buffer a second
    time. *)
Theorem each_query_pushes_the_frame_again (h w : Z) (hand_index : nat)
    (t : Tracker) (hd : hand) :
  results t ≫= (fun hands => hands !! hand_index) = Some hd →
  let pushed_once :=
    deque_append smoothing_buffer_size (landmark_buffer t) (current_landmarks h w hd) in
  let pushed_twice :=
    deque_append smoothing_buffer_size pushed_once (current_landmarks h w hd) in
  let t1 := (get_landmarks_list h w hand_index t).1 in
  landmark_buffer t1 = pushed_once ∧
  landmark_buffer (get_hand_center h w hand_index t1).1 = pushed_twice ∧
  landmark_buffer (get_index_tip h w hand_index t1).1 = pushed_twice.
Proof.
  intros Hhd. cbv zeta.
  assert (Hpush : ∀ t0, results t0 ≫= (fun hands => hands !! hand_index) = Some hd →
            landmark_buffer (get_landmarks_list h w hand_index t0).1
            = deque_append smoothing_buffer_size (landmark_buffer t0)
                (current_landmarks h w hd) ∧
            results (get_landmarks_list h w hand_index t0).1 = results t0).
  { intros t0 H0. rewrite (get_landmarks_list_detected h w hand_index t0 hd H0).
    cbv zeta. by case_decide. }
  destruct (Hpush t Hhd) as [Hb Hr].
  assert (Hhd1 : results (get_landmarks_list h w hand_index t).1
                 ≫= (fun hands => hands !! hand_index) = Some hd)
    by (by rewrite Hr).
  destruct (Hpush _ Hhd1) as [Hb1 _].
  split; [done |]. split.
  - by rewrite hand_center_state, Hb1, Hb.
  - destruct (index_tip_state h w hand_index (get_landmarks_list h w hand_index t).1)
      as (-> & _). by rewrite Hb1, Hb.
Qed.

Lemma each_query_pushes_the_frame_again_witness :
  let t := resting 2 0 in
  let pushed_once :=
    deque_append smoothing_buffer_size (landmark_buffer t)
      (current_landmarks 512 512 (uniform_hand 0 0)) in
  let pushed_twice :=
    deque_append smoothing_buffer_size pushed_once
      (current_landmarks 512 512 (uniform_hand 0 0)) in
  let t1 := (get_landmarks_list 512 512 0 t).1 in
  landmark_buffer t1 = pushed_once ∧
  landmark_buffer (get_hand_center 512 512 0 t1).1 = pushed_twice ∧
  landmark_buffer (get_index_tip 512 512 0 t1).1 = pushed_twice.
Proof.
  apply (each_query_pushes_the_frame_again 512 512 0 (resting 2 0) (uniform_hand 0 0)).
  reflexivity.
Defined.

End BoundedBuffers.

Section CounterBounds.
Import HandTracker TrackingSession HandTrackerQueries.

Lemma landmarks_list_counter (h w : Z) (hand_index : nat) (t : Tracker) :
  (0 <= hand_stability_counter t)%Z →
  (length (landmark_buffer t) < 3 → hand_stability_counter t = 0%Z)%nat →
  let t' := (get_landmarks_list h w hand_index t).1 in
  (0 <= hand_stability_counter t' <= hand_stability_counter t + 1)%Z ∧
  ((length (landmark_buffer t') < 3)%nat → hand_stability_counter t' = 0%Z).
Proof.
  intros Hc Hfew. cbv zeta. unfold get_landmarks_list.
  destruct (results t ≫= _) as [hd |]; [| cbn; split; [lia | done]].
  set (buffer := deque_append smoothing_buffer_size (landmark_buffer t)
                   (current_landmarks h w hd)).
  assert (Hlen : (length (landmark_buffer t) < length buffer
                  ∨ 5 <= length buffer)%nat).
  { subst buffer. unfold deque_append, smoothing_buffer_size.
    case_decide; rewrite length_app; cbn; [lia |]. rewrite length_drop. lia. }
  case_decide as H2; cbn [fst landmark_buffer hand_stability_counter].
  - case_decide as H3.
    + split; [| lia]. unfold update_counter.
      destruct (check_landmark_stability _ _); lia.
    + split; [lia |]. intros _. apply Hfew. lia.
  - split; [lia |]. intros _. apply Hfew. lia.
Qed.

Lemma exec_counter (t : Tracker) (c : call) (n : nat) :
  (0 <= hand_stability_counter t <= Z.of_nat n)%Z →
  (length (landmark_buffer t) < 3 → hand_stability_counter t = 0%Z)%nat →
  (0 <= hand_stability_counter (exec t c)
   <= Z.of_nat (n + landmark_reads [c]))%Z ∧
  ((length (landmark_buffer (exec t c)) < 3)%nat →
   hand_stability_counter (exec t c) = 0%Z).
Proof.
  intros Hc Hfew.
  assert (Hread : ∀ h w i,
    (0 <= hand_stability_counter (get_landmarks_list h w i t).1
     <= Z.of_nat (n + 1))%Z ∧
    ((length (landmark_buffer (get_landmarks_list h w i t).1) < 3)%nat →
     hand_stability_counter (get_landmarks_list h w i t).1 = 0%Z)).
  { intros h w i.
    destruct (landmarks_list_counter h w i t) as [Hb Hz]; [lia | done |].
    split; [lia | done]. }
  destruct c as [detected | h w i | h w i | h w i |]; cbn [exec landmark_reads].
  - cbn. split; [lia | done].
  - apply Hread.
  - destruct (index_tip_state h w i t) as (-> & -> & _). apply Hread.
  - rewrite hand_center_state. apply Hread.
  - cbn. split; [lia | done].
Qed.

Lemma landmark_reads_cons (c : call) (cs : list call) :
  landmark_reads (c :: cs) = (landmark_reads [c] + landmark_reads cs)%nat.
Proof. by destruct c. Qed.

Lemma run_calls_counter (cs : list call) :
  ∀ (t : Tracker) (n : nat),
    (0 <= hand_stability_counter t <= Z.of_nat n)%Z →
    (length (landmark_buffer t) < 3 → hand_stability_counter t = 0%Z)%nat →
    (0 <= hand_stability_counter (run_calls cs t)
     <= Z.of_nat (n + landmark_reads cs))%Z ∧
    ((length (landmark_buffer (run_calls cs t)) < 3)%nat →
     hand_stability_counter (run_calls cs t) = 0%Z).
Proof.
  unfold run_calls.
  induction cs as [| c cs IH]; intros t n Hc Hfew.
  - cbn. split; [lia | done].
  - cbn [foldl]. rewrite landmark_reads_cons.
    destruct (exec_counter t c n Hc Hfew) as [Hc' Hfew'].
    destruct (IH (exec t c) (n + landmark_reads [c])%nat Hc' Hfew') as [Hb Hz].
    split; [| done]. rewrite Nat.add_assoc. exact Hb.
Qed.

(** X13. After any sequence of calls on a new tracker the stability
    counter is at most the number of calls that read a frame's landmarks
    ([get_landmarks_list], [get_index_tip], [get_hand_center]), each of
    which raises it by at most one; and as long as fewer than 3 frames are
    buffered the counter is 0 and the stability score is 0. *)
Theorem counter_bounded_by_frame_reads (cs : list call) :
  (0 <= hand_stability_counter (run_calls cs __init__)
   <= Z.of_nat (landmark_reads cs))%Z ∧
  ((length (landmark_buffer (run_calls cs __init__)) < 3)%nat →
   hand_stability_counter (run_calls cs __init__) = 0%Z ∧
   get_hand_stability (run_calls cs __init__) = 0%R).
Proof.
  destruct (run_calls_counter cs __init__ 0) as [Hb Hz]; [cbn; lia | done |].
  split; [exact Hb |]. intros Hfew. specialize (Hz Hfew).
  split; [done |]. unfold get_hand_stability. by rewrite Hz.
Qed.

(** X14. A frame without a detected hand, or with a hand index beyond the
    detected hands, yields the empty list, leaves both buffers as they
    are and puts the counter, and with it the stability score, back to 0
    whatever it was. *)
Theorem missed_detection_resets_the_score (h w : Z) (hand_index : nat) (t : Tracker) :
  results t ≫= (fun hands => hands !! hand_index) = None →
  let t' := (get_landmarks_list h w hand_index t).1 in
  (get_landmarks_list h w hand_index t).2 = [] ∧
  landmark_buffer t' = landmark_buffer t ∧
  position_buffer t' = position_buffer t ∧
  hand_stability_counter t' = 0%Z ∧
  get_hand_stability t' = 0%R ∧
  (get_index_tip h w hand_index t).2 = None ∧
  (get_hand_center h w hand_index t).2 = None.
Proof.
  intros Hnone. cbv zeta.
  unfold get_index_tip, get_hand_center, get_hand_stability, get_landmarks_list.
  rewrite Hnone. cbn. by repeat split.
Qed.

Lemma missed_detection_resets_the_score_witness :
  let t := process None (resting 5 7) in
  let t' := (get_landmarks_list 512 512 0 t).1 in
  (get_landmarks_list 512 512 0 t).2 = [] ∧
  landmark_buffer t' = landmark_buffer t ∧
  position_buffer t' = position_buffer t ∧
  hand_stability_counter t' = 0%Z ∧
  get_hand_stability t' = 0%R ∧
  (get_index_tip 512 512 0 t).2 = None ∧
  (get_hand_center 512 512 0 t).2 = None.
Proof.
  apply (missed_detection_resets_the_score 512 512 0 (process None (resting 5 7))).
  reflexivity.
Defined.

End CounterBounds.

Section ReturnedLandmarks.
Import HandTracker TrackingSession HandTrackerQueries.

Lemma clamp_in_range (v size : Z) :
  (1 <= size)%Z →
  (0 <= Z.max 0 (Z.min v (size - 1)) <= size - 1)%Z ∧
  (0 <= Z.max 0 (Z.min (size - 1) v) <= size - 1)%Z.
Proof. lia. Qed.

Lemma current_landmarks_in_frame (h w : Z) (hd : hand) :
  (1 <= w)%Z → (1 <= h)%Z →
  in_frame h w (current_landmarks h w hd) ∧
  length (current_landmarks h w hd) = length hd.
Proof.
  intros Hw Hh. unfold current_landmarks. split; [| apply length_imap].
  intros i p. rewrite list_lookup_imap.
  intros Hp. apply fmap_Some in Hp as (lm & _ & ->).
  unfold lm_id, lm_x, lm_y. cbn [fst snd].
  split; [done |]. split; apply clamp_in_range; done.
Qed.

Lemma smoothed_landmarks_in_frame (h w : Z) (buffer : list (list landmark)) :
  (1 <= w)%Z → (1 <= h)%Z →
  in_frame h w (smoothed_landmarks h w buffer) ∧
  length (smoothed_landmarks h w buffer) = 21%nat.
Proof.
  intros Hw Hh. unfold smoothed_landmarks.
  split; [| by rewrite length_map, length_seq].
  intros i p.
  change (map ?f ?l) with (f <$> l). rewrite list_lookup_fmap.
  destruct (seq 0 21 !! i) as [j |] eqn:Hj; [| done].
  apply lookup_seq in Hj as [-> _]. cbn [fmap option_fmap option_map].
  destruct (weighted_average _ buffer (0 + i)) as [ax ay].
  intros [= <-]. unfold lm_id, lm_x, lm_y. cbn [fst snd].
  split; [done |]. split; apply clamp_in_range; done.
Qed.

Lemma returned_landmarks_in_frame_aux (h w : Z) (hand_index : nat) (t : Tracker) :
  (1 <= w)%Z → (1 <= h)%Z →
  in_frame h w (get_landmarks_list h w hand_index t).2.
Proof.
  intros Hw Hh. unfold get_landmarks_list.
  destruct (results t ≫= _) as [hd |]; [| done].
  case_decide; cbn [snd].
  - by apply smoothed_landmarks_in_frame.
  - by apply current_landmarks_in_frame.
Qed.

(** X15. In a frame of positive width and height, whatever
    [get_landmarks_list] returns lies inside the frame, and the entry at
    position [i] carries the landmark index [i].  It returns nothing when
    no hand is found, the frame's own clamped landmarks while the buffer
    holds a single frame, and 21 smoothed landmarks from the second
    buffered frame on. *)
Theorem returned_landmarks_lie_in_frame (h w : Z) (hand_index : nat) (t : Tracker) :
  (1 <= w)%Z → (1 <= h)%Z →
  let lms := (get_landmarks_list h w hand_index t).2 in
  in_frame h w lms ∧
  match results t ≫= (fun hands => hands !! hand_index) with
  | None => lms = []
  | Some hd =>
      if decide (landmark_buffer t = [])
      then lms = current_landmarks h w hd
      else length lms = 21%nat
  end.
Proof.
  intros Hw Hh. cbv zeta. unfold get_landmarks_list.
  destruct (results t ≫= _) as [hd |]; [| by split].
  assert (Hocc : (2 <= length (deque_append smoothing_buffer_size (landmark_buffer t)
                                 (current_landmarks h w hd)))%nat
                 ↔ landmark_buffer t ≠ []).
  { unfold deque_append, smoothing_buffer_size.
    destruct (landmark_buffer t) as [| f fs]; case_decide as Hd;
      cbn [length] in Hd; rewrite ?length_app, ?length_drop;
      cbn [length drop app]; (split; [intros ? | intros ?]); try done; lia. }
  case_decide as H2; cbn [snd].
  - destruct (smoothed_landmarks_in_frame h w
                (deque_append smoothing_buffer_size (landmark_buffer t)
                   (current_landmarks h w hd)) Hw Hh) as [Hin Hlen].
    split; [done |]. case_decide as He; [| done]. by apply Hocc in H2.
  - destruct (current_landmarks_in_frame h w hd Hw Hh) as [Hin _].
    split; [done |]. case_decide as He; [done |]. by apply Hocc in He.
Qed.

Lemma returned_landmarks_lie_in_frame_witness :
  let lms := (get_landmarks_list 512 512 0 (resting 5 0)).2 in
  in_frame 512 512 lms ∧
  match results (resting 5 0) ≫= (fun hands => hands !! 0%nat) with
  | None => lms = []
  | Some hd =>
      if decide (landmark_buffer (resting 5 0) = [])
      then lms = current_landmarks 512 512 hd
      else length lms = 21%nat
  end.
Proof.
  apply (returned_landmarks_lie_in_frame 512 512 0 (resting 5 0)); lia.
Defined.

(** X16. After [reset_buffers] the history is gone: the next frame with a
    detected hand is returned as it is, clamped but not smoothed, it is
    the only buffered frame, and the counter is 0. *)
Theorem first_frame_after_reset_is_unsmoothed (h w : Z) (hand_index : nat)
    (t : Tracker) (hd : hand) :
  results t ≫= (fun hands => hands !! hand_index) = Some hd →
  get_landmarks_list h w hand_index (reset_buffers t)
  = ({| landmark_buffer := [current_landmarks h w hd];
        position_buffer := [];
        results := results t;
        hand_stability_counter := 0 |},
     current_landmarks h w hd).
Proof.
  intros Hhd. unfold get_landmarks_list, reset_buffers.
  cbn [results landmark_buffer position_buffer hand_stability_counter].
  rewrite Hhd.
  change (deque_append smoothing_buffer_size [] (current_landmarks h w hd))
    with [current_landmarks h w hd].
  cbv zeta. case_decide as H2; [cbn in H2; lia | done].
Qed.

Lemma first_frame_after_reset_is_unsmoothed_witness :
  get_landmarks_list 512 512 0 (reset_buffers (resting 5 7))
  = ({| landmark_buffer := [current_landmarks 512 512 (uniform_hand 0 0)];
        position_buffer := [];
        results := results (resting 5 7);
        hand_stability_counter := 0 |},
     current_landmarks 512 512 (uniform_hand 0 0)).
Proof.
  apply (first_frame_after_reset_is_unsmoothed 512 512 0 (resting 5 7)
           (uniform_hand 0 0)).
  reflexivity.
Defined.

(** X17. [get_hand_center] changes the tracker exactly as
    [get_landmarks_list] does.  It returns nothing when fewer than 10
    landmarks come back (with exactly 9 through the caught [IndexError]);
    otherwise it returns the midpoint, rounded down, of the wrist and the
    middle-finger base of the returned landmarks, which in a frame of
    positive size lies inside the frame. *)
Theorem hand_center_is_the_midpoint (h w : Z) (hand_index : nat) (t : Tracker) :
  let lms := (get_landmarks_list h w hand_index t).2 in
  (get_hand_center h w hand_index t).1 = (get_landmarks_list h w hand_index t).1 ∧
  ((length lms < 10)%nat → (get_hand_center h w hand_index t).2 = None) ∧
  ((10 <= length lms)%nat →
   ∃ wrist middle_mcp,
     lms !! 0%nat = Some wrist ∧ lms !! 9%nat = Some middle_mcp ∧
     (get_hand_center h w hand_index t).2
     = Some (((lm_x wrist + lm_x middle_mcp) `div` 2)%Z,
             ((lm_y wrist + lm_y middle_mcp) `div` 2)%Z)) ∧
  ((1 <= w)%Z → (1 <= h)%Z →
   ∀ cx cy, (get_hand_center h w hand_index t).2 = Some (cx, cy) →
            (0 <= cx <= w - 1)%Z ∧ (0 <= cy <= h - 1)%Z).
Proof.
  cbv zeta. split; [apply hand_center_state |].
  assert (Hframe : (1 <= w)%Z → (1 <= h)%Z →
            in_frame h w (get_landmarks_list h w hand_index t).2).
  { intros Hw Hh. by apply (returned_landmarks_in_frame_aux h w hand_index t). }
  unfold get_hand_center in *.
  destruct (get_landmarks_list h w hand_index t) as [t1 lms]. cbn [snd] in *.
  split; [| split].
  - intros Hlen.
    destruct (bool_decide (lms = []) || bool_decide (length lms < 9)%nat); [done |].
    rewrite (lookup_ge_None_2 lms 9) by lia. by destruct (lms !! 0%nat).
  - intros Hlen.
    destruct (lookup_lt_is_Some_2 lms 0) as [wrist Hwrist]; [lia |].
    destruct (lookup_lt_is_Some_2 lms 9) as [mcp Hmcp]; [lia |].
    exists wrist, mcp. repeat (split; [done |]).
    rewrite (bool_decide_eq_false_2 (lms = [])) by (by destruct lms).
    rewrite (bool_decide_eq_false_2 (length lms < 9)%nat) by lia.
    cbn [orb]. by rewrite Hwrist, Hmcp.
  - intros Hw Hh cx cy.
    destruct (bool_decide (lms = []) || bool_decide (length lms < 9)%nat); [done |].
    destruct (lms !! 0%nat) as [wrist |] eqn:Hwrist; [| done].
    destruct (lms !! 9%nat) as [mcp |] eqn:Hmcp; [| done].
    cbn [snd]. intros [= <- <-].
    destruct (Hframe Hw Hh 0%nat wrist Hwrist) as (_ & Hx0 & Hy0).
    destruct (Hframe Hw Hh 9%nat mcp Hmcp) as (_ & Hx9 & Hy9).
    split; split; try (apply Z.div_pos; lia);
      apply Z.div_le_upper_bound; lia.
Qed.

End ReturnedLandmarks.

Section IndexTip.
Import HandTracker TrackingSession HandTrackerQueries.

(** In a list whose entries carry their own position as index, the search
    for an index finds the entry at that position. *)
Lemma find_by_index (lms : list landmark) (off k : nat) (p : landmark) :
  (∀ i q, lms !! i = Some q → lm_id q = Z.of_nat (off + i)) →
  lms !! k = Some p →
  List.find (fun q => bool_decide (lm_id q = Z.of_nat (off + k))) lms = Some p.
Proof.
  revert off k. induction lms as [| q lms IH]; intros off k Hids Hk; [done |].
  cbn [List.find]. destruct k as [| k].
  - injection Hk as ->. rewrite bool_decide_eq_true_2; [done |].
    by apply (Hids 0%nat).
  - rewrite bool_decide_eq_false_2.
    + replace (off + S k)%nat with (S off + k)%nat by lia.
      apply IH; [| done]. intros i q' Hq'.
      replace (S off + i)%nat with (off + S i)%nat by lia. by apply (Hids (S i)).
    + rewrite (Hids 0%nat q eq_refl). lia.
Qed.

Lemma returned_landmarks_indexed (h w : Z) (hand_index : nat) (t : Tracker) :
  ∀ i q, (get_landmarks_list h w hand_index t).2 !! i = Some q →
         lm_id q = Z.of_nat i.
Proof.
  intros i q. unfold get_landmarks_list.
  destruct (results t ≫= _) as [hd |]; [| done].
  case_decide; cbn [snd].
  - unfold smoothed_landmarks. change (map ?f ?l) with (f <$> l).
    rewrite list_lookup_fmap.
    destruct (seq 0 21 !! i) as [j |] eqn:Hj; [| done].
    apply lookup_seq in Hj as [-> _]. cbn [fmap option_fmap option_map].
    destruct (weighted_average _ _ (0 + i)) as [ax ay]. by intros [= <-].
  - unfold current_landmarks. rewrite list_lookup_imap.
    intros Hq. by apply fmap_Some in Hq as (lm & _ & ->).
Qed.

(** X18. [get_index_tip] returns nothing, and leaves the position buffer
    alone, when fewer than 9 landmarks come back.  Otherwise it always
    finds landmark 8, appends its position to the position buffer and
    returns a position; with no earlier position buffered that is the
    position of landmark 8 itself. *)
Theorem index_tip_follows_landmark_8 (h w : Z) (hand_index : nat) (t : Tracker) :
  let lms := (get_landmarks_list h w hand_index t).2 in
  ((length lms < 9)%nat →
   (get_index_tip h w hand_index t).2 = None ∧
   position_buffer (get_index_tip h w hand_index t).1 = position_buffer t) ∧
  ((9 <= length lms)%nat →
   ∃ tip,
     lms !! 8%nat = Some tip ∧
     position_buffer (get_index_tip h w hand_index t).1
     = deque_append smoothing_buffer_size (position_buffer t) (lm_x tip, lm_y tip) ∧
     is_Some (get_index_tip h w hand_index t).2 ∧
     (position_buffer t = [] →
      (get_index_tip h w hand_index t).2 = Some (lm_x tip, lm_y tip))).
Proof.
  cbv zeta.
  pose proof (returned_landmarks_indexed h w hand_index t) as Hids.
  destruct (landmarks_list_buffers h w hand_index t) as [Hpos _].
  unfold get_index_tip.
  destruct (get_landmarks_list h w hand_index t) as [t1 lms]. cbn [fst snd] in *.
  split.
  - intros Hlen. rewrite (bool_decide_eq_true_2 (length lms < 9)%nat) by done.
    by rewrite orb_true_r.
  - intros Hlen.
    destruct (lookup_lt_is_Some_2 lms 8) as [tip Htip]; [lia |].
    exists tip. split; [done |].
    rewrite (bool_decide_eq_false_2 (lms = [])) by (by destruct lms).
    rewrite (bool_decide_eq_false_2 (length lms < 9)%nat) by lia.
    cbn [orb].
    pose proof (find_by_index lms 0 8 tip Hids Htip) as Hfind.
    change (Z.of_nat (0 + 8)) with 8%Z in Hfind. rewrite Hfind, Hpos.
    case_decide as H2.
    + destruct (weighted_position _ _) as [ax ay]. cbn [fst snd position_buffer].
      split; [done |]. split; [by eexists |].
      intros Hempty. rewrite Hempty in H2.
      change (deque_append smoothing_buffer_size [] ?x) with [x] in H2.
      cbn in H2. lia.
    + cbn [fst snd position_buffer]. split; [done |]. split; [by eexists | done].
Qed.

End IndexTip.

Section PositionStability.
Import HandTracker TrackingSession HandTrackerQueries.

Lemma np_var_constant (x : R) (n : nat) : np_var (replicate n x) = 0%R.
Proof.
  unfold np_var. apply np_mean_zeros.
  destruct n as [| n]; [constructor |].
  rewrite np_mean_replicate by lia.
  apply Forall_fmap, Forall_forall. intros y Hy. cbn.
  apply elem_of_replicate in Hy as [-> _]. ring.
Qed.

(** X19. [is_hand_stable] answers not-stable while fewer than 3 positions
    are buffered.  It looks at the 3 most recent positions only: when these
    are one and the same point it answers stable for every positive
    threshold, whatever older positions the buffer holds. *)
Theorem hand_at_rest_is_stable (threshold : R) (t : Tracker) :
  ((length (position_buffer t) < 3)%nat → is_hand_stable threshold t = false) ∧
  (∀ older p, position_buffer t = older ++ [p; p; p] →
     (0 < threshold)%R → is_hand_stable threshold t = true) ∧
  (∀ older recent t', position_buffer t = older ++ recent →
     length recent = 3%nat →
     position_buffer t' = recent →
     is_hand_stable threshold t = is_hand_stable threshold t').
Proof.
  unfold is_hand_stable. split; [| split].
  - intros Hlen. by case_decide.
  - intros older p Hbuf Hpos. rewrite Hbuf.
    case_decide as Hlen; [rewrite length_app in Hlen; cbn in Hlen; lia |].
    rewrite drop_to_last_three. cbn [fmap list_fmap].
    change [IZR p.1; IZR p.1; IZR p.1] with (replicate 3 (IZR p.1)).
    change [IZR p.2; IZR p.2; IZR p.2] with (replicate 3 (IZR p.2)).
    rewrite !np_var_constant. by rewrite !bool_decide_eq_true_2.
  - intros older recent t' Hbuf Hlen Hbuf'. rewrite Hbuf, Hbuf'.
    rewrite length_app, Hlen.
    case_decide; [lia |]. case_decide; [lia |].
    replace (length older + 3 - 3)%nat with (length older) by lia.
    rewrite drop_app_length. replace (3 - 3)%nat with 0%nat by lia. done.
Qed.

End PositionStability.

Section Calibrate.
Import GestureCalibrator HandTracker HandTrackerQueries.

(** X20. The tracker's [calibrate] records a reference only from a list
    of at least 21 landmarks, and then records the hand size that the
    calibrator's [_calculate_hand_size] computes, the distance from the
    wrist to the middle-finger base; a shorter list leaves the reference as
    it was, where the calibrator computes a size from 10 landmarks on. *)
Theorem calibrate_needs_all_landmarks (lms : list landmark) (reference : R) :
  ((21 <= length lms)%nat →
   calibrate lms reference = _calculate_hand_size lms ∧
   calibrate lms reference = euclidean_distance (item lms 0) (item lms 9)) ∧
  ((length lms < 21)%nat → calibrate lms reference = reference).
Proof.
  unfold calibrate, _calculate_hand_size. split.
  - intros Hlen.
    rewrite (bool_decide_eq_true_2 (lms ≠ []))
      by (intros ->; cbn in Hlen; lia).
    rewrite (bool_decide_eq_true_2 (21 <= length lms)%nat) by done.
    cbn [andb]. case_decide; [lia |]. split; [done |].
    apply sqrt_squares_distance.
  - intros Hlen.
    rewrite (bool_decide_eq_false_2 (21 <= length lms)%nat) by lia.
    by rewrite andb_false_r.
Qed.

End Calibrate.

Section SmoothingWeights.
Import HandTracker TrackingSession HandTrackerQueries.

Lemma np_linspace_length (a b : R) (n : nat) : length (np_linspace a b n) = n.
Proof.
  destruct n as [| [| m]]; [done | done |].
  unfold np_linspace. rewrite length_app, length_map, length_seq. cbn. lia.
Qed.

Lemma np_linspace_lookup (a b : R) (n j : nat) :
  (2 <= n)%nat → (j < n)%nat →
  np_linspace a b n !! j
  = Some (a + IZR (Z.of_nat j) * ((b - a) / IZR (Z.of_nat (n - 1))))%R.
Proof.
  intros Hn Hj. destruct n as [| [| m]]; [lia | lia |].
  unfold np_linspace. replace (S (S m) - 1)%nat with (S m) by lia.
  change (map ?f ?l) with (f <$> l).
  destruct (decide (j < S m)%nat) as [Hlt | Hge].
  - rewrite lookup_app_l by (by rewrite length_fmap, length_seq).
    by rewrite list_lookup_fmap, lookup_seq_lt.
  - assert (j = S m) as -> by lia.
    rewrite lookup_app_r by (rewrite length_fmap, length_seq; lia).
    rewrite length_fmap, length_seq, Nat.sub_diag. cbn [lookup list_lookup].
    f_equal. assert (0 < IZR (Z.of_nat (S m)))%R by (apply IZR_lt; lia).
    field. lra.
Qed.

Lemma np_sum_scaled (total : R) (l : list R) :
  np_sum (map (fun w => (w / total)%R) l) = (np_sum l / total)%R.
Proof.
  induction l as [| x l IH].
  - unfold np_sum. cbn. unfold Rdiv. ring.
  - cbn [map]. rewrite !np_sum_cons, IH. unfold Rdiv. ring.
Qed.

(** X21. For a buffer of [n >= 2] entries the smoothing weights are [n]
    positive numbers that add up to 1 and strictly increase from the
    oldest entry to the newest, the oldest weighing 0.3 times the newest
    (over the reals). *)
Theorem smoothing_weights_profile (n : nat) :
  (2 <= n)%nat →
  length (smoothing_weights n) = n ∧
  np_sum (smoothing_weights n) = 1%R ∧
  Forall (fun w => 0 < w)%R (smoothing_weights n) ∧
  (∀ i j wi wj, (i < j)%nat →
     smoothing_weights n !! i = Some wi → smoothing_weights n !! j = Some wj →
     (wi < wj)%R) ∧
  (∀ oldest newest,
     smoothing_weights n !! 0%nat = Some oldest →
     smoothing_weights n !! (n - 1)%nat = Some newest →
     oldest = (0.3 * newest)%R).
Proof.
  intros Hn. unfold smoothing_weights.
  set (l := np_linspace 0.3 1.0 n). set (total := np_sum l).
  assert (Hstep : (0 < (1.0 - 0.3) / IZR (Z.of_nat (n - 1)))%R).
  { assert (0 < IZR (Z.of_nat (n - 1)))%R by (apply IZR_lt; lia).
    apply Rdiv_lt_0_compat; lra. }
  assert (Hl : ∀ j x, l !! j = Some x →
            (j < n)%nat ∧
            x = (0.3 + IZR (Z.of_nat j) * ((1.0 - 0.3) / IZR (Z.of_nat (n - 1))))%R).
  { intros j x Hx. assert (j < n)%nat as Hj.
    { apply lookup_lt_Some in Hx. subst l. by rewrite np_linspace_length in Hx. }
    split; [done |]. subst l. rewrite (np_linspace_lookup _ _ n j Hn Hj) in Hx.
    by injection Hx. }
  assert (Hpos : Forall (fun x => 0 < x)%R l).
  { apply Forall_lookup. intros j x Hx. destruct (Hl j x Hx) as [Hj ->].
    assert (0 <= IZR (Z.of_nat j))%R by (apply IZR_le; lia). nra. }
  assert (Htotal : (0 < total)%R).
  { destruct (np_sum_above 0 l Hpos) as [_ Hlt].
    assert (l ≠ []) as Hne.
    { intros He. pose proof (np_linspace_length 0.3 1.0 n) as Hlen.
      fold l in Hlen. rewrite He in Hlen. cbn in Hlen. lia. }
    specialize (Hlt Hne). subst total. lra. }
  change (map ?f ?l) with (f <$> l).
  split; [by rewrite length_fmap; apply np_linspace_length |].
  split.
  { change ((fun w => (w / total)%R) <$> l) with (map (fun w => (w / total)%R) l).
    rewrite np_sum_scaled. fold total. field. lra. }
  split.
  { apply Forall_fmap. eapply Forall_impl; [exact Hpos |].
    intros x Hx. cbn. by apply Rdiv_lt_0_compat. }
  split.
  - intros i j wi wj Hij. rewrite !list_lookup_fmap.
    destruct (l !! i) as [xi |] eqn:Hi; [| done].
    destruct (l !! j) as [xj |] eqn:Hj; [| done].
    cbn. intros [= <-] [= <-].
    destruct (Hl i xi Hi) as [_ ->]. destruct (Hl j xj Hj) as [_ ->].
    assert (IZR (Z.of_nat i) < IZR (Z.of_nat j))%R by (apply IZR_lt; lia).
    apply Rmult_lt_compat_r; [by apply Rinv_0_lt_compat | nra].
  - intros oldest newest. rewrite !list_lookup_fmap.
    destruct (l !! 0%nat) as [x0 |] eqn:H0; [| done].
    destruct (l !! (n - 1)%nat) as [x1 |] eqn:H1; [| done].
    cbn. intros [= <-] [= <-].
    destruct (Hl _ x0 H0) as [_ ->]. destruct (Hl _ x1 H1) as [_ ->].
    assert (0 < IZR (Z.of_nat (n - 1)))%R by (apply IZR_lt; lia).
    change (IZR (Z.of_nat 0)) with 0%R.
    replace (IZR (Z.of_nat (n - 1)) * ((1.0 - 0.3) / IZR (Z.of_nat (n - 1))))%R
      with (1.0 - 0.3)%R by (field; lra).
    clearbody total. unfold Rdiv. lra.
Qed.

Lemma smoothing_weights_profile_witness :
  length (smoothing_weights 3) = 3%nat ∧
  np_sum (smoothing_weights 3) = 1%R ∧
  Forall (fun w => 0 < w)%R (smoothing_weights 3) ∧
  (∀ i j wi wj, (i < j)%nat →
     smoothing_weights 3 !! i = Some wi → smoothing_weights 3 !! j = Some wj →
     (wi < wj)%R) ∧
  (∀ oldest newest,
     smoothing_weights 3 !! 0%nat = Some oldest →
     smoothing_weights 3 !! (3 - 1)%nat = Some newest →
     oldest = (0.3 * newest)%R).
Proof. apply (smoothing_weights_profile 3). lia. Defined.

End SmoothingWeights.

Section StabilityVerdict.
Import HandTracker TrackingSession HandTrackerQueries.

Lemma euclidean_distance_sym (p q : landmark) :
  euclidean_distance p q = euclidean_distance q p.
Proof. unfold euclidean_distance. f_equal. ring. Qed.

Lemma matching_displacements_sym (frame1 frame2 : list landmark) :
  matching_displacements frame1 frame2 = matching_displacements frame2 frame1.
Proof.
  unfold matching_displacements. revert frame2.
  induction frame1 as [| p frame1 IH]; intros [| q frame2]; [done .. |].
  cbn [zip zip_with]. rewrite !filter_cons. cbn [fst snd].
  destruct (decide (lm_id p = lm_id q)) as [Heq | Hne].
  - rewrite decide_True by done. cbn [fmap list_fmap fst snd].
    f_equal; [apply euclidean_distance_sym | apply IH].
  - rewrite decide_False by (intros He; by apply Hne). apply IH.
Qed.

(** X22. The stability verdict depends on the first and the last frame of
    the window only, whatever lies between them; it is the same when the
    two are exchanged; and a window stable for one threshold is stable for
    every larger one. *)
Theorem stability_verdict_uses_the_two_ends (threshold : R) :
  (∀ first mid last,
     check_landmark_stability (first :: mid ++ [last]) threshold
     = check_landmark_stability [first; last] threshold) ∧
  (∀ first last,
     check_landmark_stability [first; last] threshold
     = check_landmark_stability [last; first] threshold) ∧
  (∀ frames larger, (threshold <= larger)%R →
     check_landmark_stability frames threshold = true →
     check_landmark_stability frames larger = true).
Proof.
  split; [| split].
  - intros first mid last.
    rewrite check_first_last. symmetry. apply (check_first_last first last []).
  - intros first last.
    rewrite (check_first_last first last []), (check_first_last last first []).
    rewrite (matching_displacements_sym last first).
    repeat case_decide; try done; congruence.
  - intros frames larger Hle. unfold check_landmark_stability.
    case_decide; [done |]. case_decide; [done |].
    destruct (distances_loop _ _); [done |].
    rewrite !bool_decide_eq_true. lra.
Qed.

End StabilityVerdict.
